(** * janus-token: the integrity-scoring token generator of [index.js]

    A shallow embedding of [index.js] (the [TokenGenerator] constructor and its
    [create], [decode], [compare], [calculate] and [train] methods, with the
    helpers [userAgentTest], [evaluateLanguage], [evaluateReferer] and
    [createToken]) and the properties its specification states about it.

    JavaScript strings are sequences of UTF-16 code units, numbers are IEEE-754
    binary64 values (Rocq's primitive floats), objects passed by reference live
    in an explicit store, and the libraries the module requires
    (fast-levenshtein, brain, url, jsonwebtoken, uuid) are collaborators given
    by a record of functions. *)

From Stdlib Require Import ZArith NArith List String Ascii Bool Lia Floats DecimalString.
From stdpp Require Import base option list gmap strings.

Set Default Proof Using "Type".
Local Open Scope N_scope.

(** ** JavaScript strings *)

Module JsString.

(** A string value: its UTF-16 code units, each below [65536]. *)
Definition jsstring : Type := list N.

(** A literal of printable ASCII text as a JavaScript string. *)
Definition js (s : string) : jsstring :=
  map N_of_ascii (list_ascii_of_string s).

(** [s.substr(0, n)]: the first [n] code units. *)
Definition substr0 (n : nat) (s : jsstring) : jsstring := take n s.

(** [s.indexOf(c) !== -1] for a one-character needle [c]. *)
Definition contains (c : N) (s : jsstring) : bool :=
  existsb (N.eqb c) s.

(** WhiteSpace and LineTerminator code units, which [trim] strips. *)
Definition is_whitespace (c : N) : bool :=
  (9 <=? c) && (c <=? 13)
  || (c =? 32) || (c =? 160) || (c =? 5760)
  || (8192 <=? c) && (c <=? 8202)
  || (c =? 8232) || (c =? 8233) || (c =? 8239) || (c =? 8287)
  || (c =? 12288) || (c =? 65279).

Fixpoint drop_while (p : N -> bool) (s : jsstring) : jsstring :=
  match s with
  | c :: s' => if p c then drop_while p s' else s
  | [] => []
  end.

(** [s.trim()]: white space stripped from both ends. *)
Definition trim (s : jsstring) : jsstring :=
  rev (drop_while is_whitespace (rev (drop_while is_whitespace s))).

(** [s.trim() === '']. *)
Definition is_blank (s : jsstring) : bool :=
  match trim s with [] => true | _ => false end.

(** ASCII upper-casing of one code unit, the canonicalisation an [i]-flagged
    pattern of ASCII letters applies. *)
Definition upcase (c : N) : N :=
  if (97 <=? c) && (c <=? 122) then c - 32 else c.

Definition is_letter (c : N) : bool :=
  let u := upcase c in (65 <=? u) && (u <=? 90).

(** Does [w] match at the start of [s], letter case ignored? *)
Fixpoint prefix_ci (w s : jsstring) : bool :=
  match w, s with
  | [], _ => true
  | _ :: _, [] => false
  | a :: w', b :: s' => (upcase a =? upcase b) && prefix_ci w' s'
  end.

(** Index of the first suffix of [s] that satisfies [p], if any. *)
Fixpoint first_index (p : jsstring -> bool) (s : jsstring) : option nat :=
  if p s then Some 0%nat
  else match s with
       | [] => None
       | _ :: s' => S <$> first_index p s'
       end.

End JsString.
Export JsString.

(** ** SHA-256 (FIPS 180-4) over the UTF-8 encoding, as [crypto.createHash] *)

Module Sha256.

Definition mask32 : N := 0xffffffff.
Definition add32 (a b : N) : N := N.land (a + b) mask32.
Definition rotr (n x : N) : N :=
  N.lor (N.shiftr x n) (N.land (N.shiftl x (32 - n)) mask32).
Definition not32 (x : N) : N := N.lxor x mask32.

Definition Ch (x y z : N) : N := N.lxor (N.land x y) (N.land (not32 x) z).
Definition Maj (x y z : N) : N :=
  N.lxor (N.lxor (N.land x y) (N.land x z)) (N.land y z).
Definition bsig0 (x : N) : N := N.lxor (N.lxor (rotr 2 x) (rotr 13 x)) (rotr 22 x).
Definition bsig1 (x : N) : N := N.lxor (N.lxor (rotr 6 x) (rotr 11 x)) (rotr 25 x).
Definition ssig0 (x : N) : N := N.lxor (N.lxor (rotr 7 x) (rotr 18 x)) (N.shiftr x 3).
Definition ssig1 (x : N) : N := N.lxor (N.lxor (rotr 17 x) (rotr 19 x)) (N.shiftr x 10).

(** The constants are the first 32 bits of the fractional parts of the cube
    roots (round constants) and of the square roots (initial hash value) of
    the first primes. *)
Definition is_prime (n : N) : bool :=
  (2 <=? n) && forallb (fun d => negb (n mod N.of_nat d =? 0)) (seq 2 (N.to_nat n - 2)).

Definition primes (count : nat) : list N :=
  take count (List.filter is_prime (map N.of_nat (seq 2 400))).

(** The integer cube root, bit by bit from the top. *)
Definition cube_root (n : N) : N :=
  fold_left (fun x i => let y := x + 2 ^ N.of_nat i in if y * y * y <=? n then y else x)
            (rev (seq 0 48)) 0.

Definition K : list N :=
  Eval vm_compute in map (fun p => cube_root (p * 2 ^ 96) mod 2 ^ 32) (primes 64).

(** The eight working variables, also the running hash value. *)
Record state := State { sa : N; sb : N; sc : N; sd : N; se : N; sf : N; sg : N; sh : N }.

Definition initial_words : list N :=
  Eval vm_compute in map (fun p => N.sqrt (p * 2 ^ 64) mod 2 ^ 32) (primes 8).

Definition H0 : state :=
  match initial_words with
  | [a; b; c; d; e; f; g; h] => State a b c d e f g h
  | _ => State 0 0 0 0 0 0 0 0
  end.

(** UTF-8 bytes of a string; an unpaired surrogate becomes U+FFFD. *)
Definition utf8_3 (c : N) : list N :=
  [ N.lor 0xe0 (N.shiftr c 12);
    N.lor 0x80 (N.land (N.shiftr c 6) 0x3f);
    N.lor 0x80 (N.land c 0x3f) ].

Fixpoint utf8 (s : jsstring) : list N :=
  match s with
  | [] => []
  | c :: rest =>
      if c <? 0x80 then c :: utf8 rest
      else if c <? 0x800 then
        N.lor 0xc0 (N.shiftr c 6) :: N.lor 0x80 (N.land c 0x3f) :: utf8 rest
      else if (0xd800 <=? c) && (c <=? 0xdbff) then
        match rest with
        | d :: rest' =>
            if (0xdc00 <=? d) && (d <=? 0xdfff) then
              let cp := 0x10000 + N.shiftl (c - 0xd800) 10 + (d - 0xdc00) in
              N.lor 0xf0 (N.shiftr cp 18)
                :: N.lor 0x80 (N.land (N.shiftr cp 12) 0x3f)
                :: N.lor 0x80 (N.land (N.shiftr cp 6) 0x3f)
                :: N.lor 0x80 (N.land cp 0x3f) :: utf8 rest'
            else utf8_3 0xfffd ++ utf8 rest
        | [] => utf8_3 0xfffd
        end
      else if (0xdc00 <=? c) && (c <=? 0xdfff) then utf8_3 0xfffd ++ utf8 rest
      else utf8_3 c ++ utf8 rest
  end.

(** Message padding: a [1] bit, zeros, and the bit length on 64 bits. *)
Definition be_bytes (n : nat) (x : N) : list N :=
  map (fun i => N.land (N.shiftr x (8 * N.of_nat i)) 0xff) (rev (seq 0 n)).

Definition pad (msg : list N) : list N :=
  let len := length msg in
  let zeros := ((119 - len mod 64) mod 64)%nat in
  msg ++ [0x80] ++ replicate zeros 0 ++ be_bytes 8 (8 * N.of_nat len).

Definition word_of (bs : list N) : N :=
  fold_left (fun acc b => N.lor (N.shiftl acc 8) (N.land b 0xff)) bs 0.

(** Consecutive groups of [n] items; [fuel] bounds the number of groups. *)
Fixpoint chunks {A} (fuel n : nat) (l : list A) : list (list A) :=
  match fuel, l with
  | O, _ | _, [] => []
  | S fuel', _ => take n l :: chunks fuel' n (drop n l)
  end.

(** The message schedule: [w] holds the last sixteen words. *)
Fixpoint schedule (n : nat) (w : list N) : list N :=
  match n, w with
  | S n', w0 :: w' =>
      let nth_w i := nth i w' 0 in
      let new := add32 (add32 (ssig1 (nth_w 13%nat)) (nth_w 8%nat))
                       (add32 (ssig0 (nth_w 0%nat)) w0) in
      w0 :: schedule n' (w' ++ [new])
  | _, _ => w
  end.

Definition round (s : state) (kw : N * N) : state :=
  let '(k, w) := kw in
  let t1 := add32 (add32 (add32 (sh s) (bsig1 (se s)))
                         (add32 (Ch (se s) (sf s) (sg s)) k)) w in
  let t2 := add32 (bsig0 (sa s)) (Maj (sa s) (sb s) (sc s)) in
  State (add32 t1 t2) (sa s) (sb s) (sc s) (add32 (sd s) t1) (se s) (sf s) (sg s).

Definition compress (h : state) (block : list N) : state :=
  let w := schedule 48 (map word_of (chunks 16 4 block)) in
  let s := fold_left round (zip K w) h in
  State (add32 (sa h) (sa s)) (add32 (sb h) (sb s)) (add32 (sc h) (sc s))
        (add32 (sd h) (sd s)) (add32 (se h) (se s)) (add32 (sf h) (sf s))
        (add32 (sg h) (sg s)) (add32 (sh h) (sh s)).

Definition digest (msg : list N) : state :=
  let padded := pad msg in
  fold_left compress (chunks (length padded) 64 padded) H0.

Definition hex_digit (d : N) : N := if d <? 10 then 48 + d else 87 + d.

Definition hex_word (x : N) : jsstring :=
  map (fun i => hex_digit (N.land (N.shiftr x (4 * i)) 0xf)) [7; 6; 5; 4; 3; 2; 1; 0].

Definition hex_state (s : state) : jsstring :=
  hex_word (sa s) ++ hex_word (sb s) ++ hex_word (sc s) ++ hex_word (sd s)
  ++ hex_word (se s) ++ hex_word (sf s) ++ hex_word (sg s) ++ hex_word (sh s).

(** [crypto.createHash('sha256').update(s).digest('hex')]. *)
Definition sha256_hex (s : jsstring) : jsstring := hex_state (digest (utf8 s)).

(** A lower-case hexadecimal digit. *)
Definition is_hex (c : N) : bool :=
  (48 <=? c) && (c <=? 57) || (97 <=? c) && (c <=? 102).

End Sha256.

(** ** JavaScript values *)

Module JsValue.

(** Primitive values. *)
Inductive prim :=
| PUndefined
| PNull
| PBool (b : bool)
| PNum (x : float)
| PStr (s : jsstring).

(** A value by content: a primitive, or an object of primitive-valued
    properties (what a JSON payload of this module carries). *)
Inductive jsdata :=
| DPrim (p : prim)
| DObj (o : gmap string prim).

(** An argument: a primitive, or a reference to an object of the store. *)
Inductive jsarg :=
| ArgPrim (p : prim)
| ArgObj (l : positive).

(** The Number value of a natural number, correctly rounded. *)
Definition Number_of_N (n : N) : float :=
  SF2Prim (binary_normalize prec emax (Z.of_N n) 0 false).

Definition Number_of_bool (b : bool) : float :=
  if b then 1%float else 0%float.

(** ToBoolean. *)
Definition to_boolean (p : prim) : bool :=
  match p with
  | PUndefined | PNull => false
  | PBool b => b
  | PNum x => negb (PrimFloat.is_zero x || PrimFloat.is_nan x)
  | PStr s => match s with [] => false | _ => true end
  end.

Definition data_to_boolean (d : jsdata) : bool :=
  match d with DPrim p => to_boolean p | DObj _ => true end.

Definition arg_to_boolean (a : jsarg) : bool :=
  match a with ArgPrim p => to_boolean p | ArgObj _ => true end.

(** ToNumber of a primitive that is not a string ([None] on a string). *)
Definition nonstring_to_number (p : prim) : option float :=
  match p with
  | PUndefined => Some PrimFloat.nan
  | PNull => Some 0%float
  | PBool b => Some (Number_of_bool b)
  | PNum x => Some x
  | PStr _ => None
  end.

Section ToString.
(** Number::toString of the runtime. *)
Variable Number_toString : float -> jsstring.

(** ToString. *)
Definition to_string (p : prim) : jsstring :=
  match p with
  | PUndefined => js "undefined"
  | PNull => js "null"
  | PBool true => js "true"
  | PBool false => js "false"
  | PNum x => Number_toString x
  | PStr s => s
  end.

(** The [+] operator on primitives: a sum when neither operand is a
    string, the concatenation of the operands' texts otherwise. *)
Definition js_add (a b : prim) : prim :=
  match nonstring_to_number a, nonstring_to_number b with
  | Some x, Some y => PNum (x + y)%float
  | _, _ => PStr (to_string a ++ to_string b)
  end.
End ToString.

End JsValue.
Export JsValue.

(** ** Regular expressions, as far as [String.prototype.search] sees them *)

Module RegExp.

(** A pattern is given by the index of its first match in a string. *)
Definition RegExp : Type := jsstring -> option nat.

(** [s.search(rx)]; an [undefined] argument is the empty pattern, which
    matches at index 0. *)
Definition search (s : jsstring) (rx : option RegExp) : Z :=
  match rx with
  | None => 0%Z
  | Some r => match r s with Some i => Z.of_nat i | None => (-1)%Z end
  end.

(** [/w1|w2|.../gi] for words of ASCII letters. *)
Definition any_word_ci (words : list jsstring) : RegExp :=
  first_index (fun suffix => existsb (fun w => prefix_ci w suffix) words).

(** [/bot|crawler|link|spider|spyder|phantom/gi] *)
Definition defaultBotMatch : RegExp :=
  any_word_ci (map js ["bot"; "crawler"; "link"; "spider"; "spyder"; "phantom"]%string).

(** [/chrome|msie|safari|mozilla|opera/gi] *)
Definition defaultBrowserMatch : RegExp :=
  any_word_ci (map js ["chrome"; "msie"; "safari"; "mozilla"; "opera"]%string).

(** [/[a-zA-Z]{2,4}\-?/]: the first place where two letters stand. *)
Definition defaultLanguageMatch : RegExp :=
  first_index (fun suffix =>
    match suffix with
    | a :: b :: _ => is_letter a && is_letter b
    | _ => false
    end).

End RegExp.
Export RegExp.

(** ** Unit-cost edit distance *)

(** Insertions, deletions and substitutions each cost one. *)
Fixpoint levenshtein (s t : jsstring) : nat :=
  match s with
  | [] => length t
  | a :: s' =>
      (fix inner (t : jsstring) : nat :=
         match t with
         | [] => length s
         | b :: t' =>
             let subst := if (a =? b)%N then 0%nat else 1%nat in
             Nat.min (Nat.min (S (levenshtein s' t)) (S (inner t')))
                     (subst + levenshtein s' t')%nat
         end) t
  end.

(** ** Data model *)

(** The four signals handed to the network, [data] in [calculate] and [input]
    of a training example. *)
Module Features.
Record t := Build {
  userAgent : float;
  language : float;
  referer : float;
  requestData : float;
}.
End Features.

(** One element of [trainingData]: [{ input: ..., output: { integrity } }]. *)
Record TrainingExample := {
  input : Features.t;
  output_integrity : float;
}.

(** The header object [create], [compare] and [calculate] receive. A header
    field is a string or is missing ([None]: [undefined] or [null]); the two
    connection fields are taken as they come. *)
Record Request := {
  httpVersion : option jsstring;
  acceptEncoding : option jsstring;
  contentType : option jsstring;
  connection : option jsstring;
  remoteFamily : prim;
  remotePort : prim;
  userAgent : option jsstring;
  acceptLanguage : option jsstring;
  referer : option jsstring;
  remoteAddress : option jsstring;
}.

(** The HTTP request object of the web framework, read by [extractHeaders]. *)
Module Express.
Record Headers := {
  accept_encoding : option jsstring;
  content_type : option jsstring;
  connection : option jsstring;
  user_agent : option jsstring;
  accept_language : option jsstring;
  referer : option jsstring;
}.
Record Connection := {
  remoteFamily : prim;
  remotePort : prim;
  remoteAddress : option jsstring;
}.
Record Request := {
  httpVersion : option jsstring;
  headers : Headers;
  connection_ : Connection;
}.
End Express.

(** [this.jwtConfig]. *)
Record JwtConfig := {
  secret : jsstring;
  algorithm : jsstring;
  issuer : option jsstring;
  audience : option jsstring;
}.

(** The state of a generator instance. *)
Record TokenGenerator := {
  jwtConfig : JwtConfig;
  delimit : jsstring;
  botMatch : RegExp;
  browserMatch : RegExp;
  languageMatch : RegExp;
  idealRequestChain : jsstring;
  trainingData : list TrainingExample;
}.

(** The claims [createToken] hands to the codec. *)
Record Claims := {
  claims_identifier : jsstring;
  claims_properties : jsdata;
}.

(** What the codec decodes from a verified token; a field the payload lacks
    reads as [undefined]. *)
Record Decoded := {
  identifier : jsdata;
  properties : jsdata;
  iat : prim;
  aud : prim;
  iss : prim;
}.

(** A signed token by its three parts, the header's algorithm, the payload and
    the signature; their base64url text is left out. *)
Record Token := {
  token_algorithm : jsstring;
  token_payload : Decoded;
  token_signature : jsstring;
}.

(** What [url.parse] returns, as far as [evaluateReferer] reads it. *)
Record UrlParts := {
  protocol : option jsstring;
  slashes : bool;
  auth : option jsstring;
  host : option jsstring;
  port : option jsstring;
}.

(** An error value a library reports, by its message. *)
Definition ErrorValue : Type := jsstring.

(** The two arguments fast-levenshtein passes to its callback. *)
Inductive LevResult :=
| LevErr (err : ErrorValue)
| LevOk (distance : N).

(** The two arguments jsonwebtoken passes to the callback of [verify]. *)
Inductive VerifyResult :=
| VerifyErr (err : ErrorValue)
| VerifyOk (decoded : Decoded).

(** What a failure continuation receives: a library's error, or [true] (the
    value of [!decoded.identifier] in [decode]). *)
Inductive ErrorArg :=
| ErrValue (err : ErrorValue)
| ErrTrue.

(** How a call of a method ends: its success continuation is invoked, its
    failure continuation is invoked, or a [TypeError] escapes. *)
Inductive Outcome (A : Type) :=
| Done (a : A)
| Error (e : ErrorArg)
| Thrown.
Arguments Done {A} a.
Arguments Error {A} e.
Arguments Thrown {A}.

(** What [this] offers inside a callback: the three matchers [calculate]'s
    callback reads from it. *)
Record Receiver := {
  this_botMatch : option RegExp;
  this_browserMatch : option RegExp;
  this_languageMatch : option RegExp;
}.

(** The global object, [this] of a callback invoked as a plain function; the
    module defines none of the three properties on it. *)
Definition globalObject : Receiver :=
  {| this_botMatch := None; this_browserMatch := None; this_languageMatch := None |}.

(** The environment the module runs in: number printing of the runtime and the
    libraries it requires. [callback_this] is the receiver fast-levenshtein
    invokes its callback with. [brain_train_run seed examples data] is the
    [integrity] a network freshly trained on [examples] gives for [data];
    [seed] stands for the random initial weights. The libraries are taken to
    leave the objects they are given as they are. *)
Record Env := {
  Number_toString : float -> jsstring;
  url_parse : jsstring -> UrlParts;
  levenshtein_getAsync : jsstring -> jsstring -> LevResult;
  callback_this : Receiver;
  brain_train_run : N -> list TrainingExample -> Features.t -> float;
  jwt_sign : Claims -> JwtConfig -> Token;
  jwt_verify : Token -> JwtConfig -> VerifyResult;
}.

(** The random values one call draws: the version-4 UUID and the seed of the
    network's initial weights. *)
Record Entropy := {
  uuid_v4 : jsstring;
  net_seed : N;
}.

(** ** Effects: the object store and the calls made to the libraries *)

Inductive Event :=
| NetTrain (examples : list TrainingExample)
| LevenshteinGet (ideal chain : jsstring)
| NetRun (data : Features.t)
| HashUpdate (text : jsstring)
| JwtSign (claims : Claims)
| JwtVerify (token : Token).

Record World := {
  heap : gmap positive (gmap string prim);
  trace : list Event;
}.

(** Computations that read and write the world. *)
Definition M (A : Type) : Type := World -> A * World.

Definition ret {A} (a : A) : M A := fun w => (a, w).
Definition bind {A B} (m : M A) (k : A -> M B) : M B :=
  fun w => let '(a, w') := m w in k a w'.

Notation "x <- m ;; k" := (bind m (fun x => k))
  (at level 100, m at level 99, right associativity).

(** A library is called. *)
Definition emit (e : Event) : M unit :=
  fun w => (tt, {| heap := heap w; trace := trace w ++ [e] |}).

(** [{}]: a new empty object. *)
Definition new_object : M positive :=
  fun w => let l := fresh (dom (heap w)) in
           (l, {| heap := <[l := ∅]> (heap w); trace := trace w |}).

(** The properties of the object at [l]. *)
Definition object_at (h : gmap positive (gmap string prim)) (l : positive)
  : gmap string prim := default ∅ (h !! l).

(** [a.k = v]; on a primitive the assignment has no effect. *)
Definition set_property (a : jsarg) (k : string) (v : prim) : M unit :=
  fun w =>
    match a with
    | ArgObj l =>
        (tt, {| heap := <[l := <[k := v]> (object_at (heap w) l)]> (heap w);
                trace := trace w |})
    | ArgPrim _ => (tt, w)
    end.

(** The content of a value, as serialisation reads it. *)
Definition snapshot (a : jsarg) : M jsdata :=
  fun w =>
    match a with
    | ArgObj l => (DObj (object_at (heap w) l), w)
    | ArgPrim p => (DPrim p, w)
    end.

(** ** The module [index.js] *)

Definition blank : jsstring := [].
(** The star U+2730. *)
Definition defaultDelimit : jsstring := [10032].
Definition defaultIdealRequestChain : jsstring :=
  js "1.1" ++ defaultDelimit ++ js "gzip, deflate" ++ defaultDelimit
  ++ js "application/json" ++ defaultDelimit ++ js "keep-alive" ++ defaultDelimit
  ++ js "IPv4" ++ defaultDelimit ++ js "443" ++ defaultDelimit.

(** [(b) & 1] for a boolean [b]. *)
Definition bit (b : bool) : float := Number_of_bool b.

(** The tolerance literal [0.05], the binary64 value nearest to 1/20. *)
Definition tolerance : float := 0x1.999999999999ap-5%float.

Definition userAgentTest (agent : option jsstring) (botMatch browserMatch : option RegExp)
  : float :=
  match agent with
  | None => 0%float
  | Some agent =>
      if is_blank agent then 0%float
      else
        ((bit (search agent botMatch =? -1)%Z
          + bit (negb (search agent browserMatch =? -1)%Z)
          + bit (contains 46 agent)
          + bit (contains 40 agent)
          + bit (contains 41 agent)
          + bit (contains 47 agent)) / 6)%float
  end.

Definition evaluateLanguage (language : option jsstring) (languageMatch : option RegExp)
  : float :=
  match language with
  | None => 0%float
  | Some language =>
      if is_blank language then 0%float
      else bit (negb (search language languageMatch =? -1)%Z)
  end.

(** [x === 'text'] for a field that is a string or [null]. *)
Definition is_text (x : option jsstring) (text : string) : bool :=
  match x with
  | Some s => bool_decide (s = js text)
  | None => false
  end.

Definition is_null (x : option jsstring) : bool :=
  match x with None => true | Some _ => false end.

(** [s || fallback] for an optional string argument. *)
Definition string_or (s : option jsstring) (fallback : jsstring) : jsstring :=
  match s with
  | Some ((_ :: _) as s) => s
  | _ => fallback
  end.

(** [new TokenGenerator(...)]; an argument left out is [None]. *)
Definition new_TokenGenerator
    (trainingData : option (list TrainingExample))
    (jwtSecret : jsstring) (jwtIssuer jwtAudience jwtAlgorithm delimit : option jsstring)
    (botMatch browserMatch languageMatch : option RegExp)
    (idealRequestChain : option jsstring) : TokenGenerator :=
  {| jwtConfig := {| secret := jwtSecret;
                     algorithm := string_or jwtAlgorithm (js "HS256");
                     issuer := jwtIssuer;
                     audience := jwtAudience |};
     delimit := string_or delimit defaultDelimit;
     botMatch := default defaultBotMatch botMatch;
     browserMatch := default defaultBrowserMatch browserMatch;
     languageMatch := default defaultLanguageMatch languageMatch;
     idealRequestChain := string_or idealRequestChain defaultIdealRequestChain;
     trainingData := default [] trainingData |}.

(** [this] when it is the generator. *)
Definition generator_receiver (g : TokenGenerator) : Receiver :=
  {| this_botMatch := Some (botMatch g);
     this_browserMatch := Some (browserMatch g);
     this_languageMatch := Some (languageMatch g) |}.

(** [f ? f.substr(0, n) : blank] *)
Definition header_field (n : nat) (f : option jsstring) : jsstring :=
  match f with
  | Some ((_ :: _) as s) => substr0 n s
  | _ => blank
  end.

(** The pepper loop of [create]: the product of the character codes. *)
Definition pepper_of (ip : jsstring) : float :=
  fold_left (fun pepper c => (pepper * Number_of_N c)%float) ip 1%float.

Section Methods.
Context (env : Env).

Definition evaluateReferer (referer : option jsstring) : float :=
  match referer with
  | None => 0%float
  | Some referer =>
      if is_blank referer then 0%float
      else
        let parts := url_parse env referer in
        bit ((is_text (protocol parts) "http:" || is_text (protocol parts) "https:")
             && slashes parts && is_null (auth parts)
             && negb (is_null (host parts)) && is_null (port parts))
  end.

Definition createToken (identifier : jsstring) (properties : jsarg) (config : JwtConfig)
  : M Token :=
  properties <- (if arg_to_boolean properties then ret properties
                 else l <- new_object ;; ret (ArgObj l)) ;;
  payload <- snapshot properties ;;
  let claims := {| claims_identifier := identifier; claims_properties := payload |} in
  _ <- emit (JwtSign claims) ;;
  ret (jwt_sign env claims config).

(** The chain [calculate] builds from the request. *)
Definition request_chain (g : TokenGenerator) (request : Request) : jsstring :=
  header_field 5 (httpVersion request) ++ delimit g
  ++ header_field 32 (acceptEncoding request) ++ delimit g
  ++ header_field 32 (contentType request) ++ delimit g
  ++ header_field 16 (connection request) ++ delimit g
  ++ to_string (Number_toString env) (remoteFamily request) ++ delimit g
  ++ to_string (Number_toString env) (remotePort request) ++ delimit g.

(** The object [data] the callback of [calculate] builds, read with the
    receiver [this]. *)
Definition request_features (this : Receiver) (request : Request) (chain : jsstring)
    (distance : N) : Features.t :=
  {| Features.userAgent :=
       userAgentTest (userAgent request) (this_botMatch this) (this_browserMatch this);
     Features.language :=
       evaluateLanguage (acceptLanguage request) (this_languageMatch this);
     Features.referer := evaluateReferer (referer request);
     Features.requestData :=
       (Number_of_N distance / Number_of_N (N.of_nat (length chain)))%float |}.

(** The callback [calculate] gives to [levenshtein.getAsync], run with the
    receiver [this]. *)
Definition calculate_callback (this : Receiver) (g : TokenGenerator) (rnd : Entropy)
    (request : Request) (chain : jsstring) (r : LevResult) : M (Outcome float) :=
  match r with
  | LevErr err => ret (Error (ErrValue err))
  | LevOk distance =>
      let data := request_features this request chain distance in
      _ <- emit (NetRun data) ;;
      ret (Done (brain_train_run env (net_seed rnd) (trainingData g) data))
  end.

(** [calculate]; the callback runs with the receiver the library gives it,
    not with the generator. *)
Definition calculate (g : TokenGenerator) (rnd : Entropy) (request : Request)
  : M (Outcome float) :=
  _ <- emit (NetTrain (trainingData g)) ;;
  let chain := request_chain g request in
  _ <- emit (LevenshteinGet (idealRequestChain g) chain) ;;
  calculate_callback (callback_this env) g rnd request chain
    (levenshtein_getAsync env (idealRequestChain g) chain).

(** The text [create] hashes: [resourceId + pepper + ip + uuid]. *)
Definition identifier_text (resourceId : prim) (ip uuid : jsstring) : jsstring :=
  let add := js_add (Number_toString env) in
  to_string (Number_toString env)
    (add (add (add resourceId (PNum (pepper_of ip))) (PStr ip)) (PStr uuid)).

Definition create (g : TokenGenerator) (rnd : Entropy) (request : Request)
    (resourceId : prim) (properties : jsarg) (version : prim)
  : M (Outcome (Token * jsstring)) :=
  properties <- (if negb (arg_to_boolean properties)
                 then l <- new_object ;; ret (ArgObj l)
                 else ret properties) ;;
  r <- calculate g rnd request ;;
  match r with
  | Done result =>
      match remoteAddress request with
      | None => ret Thrown
      | Some ip =>
          let text := identifier_text resourceId ip (uuid_v4 rnd) in
          _ <- emit (HashUpdate text) ;;
          let resourceId := Sha256.sha256_hex text in
          _ <- set_property properties "version" version ;;
          _ <- set_property properties "integrity" (PNum result) ;;
          token <- createToken resourceId properties (jwtConfig g) ;;
          ret (Done (token, resourceId))
      end
  | Error e => ret (Error e)
  | Thrown => ret Thrown
  end.

(** The callback [decode] gives to [jwt.verify]. *)
Definition decode_callback (r : VerifyResult) : Outcome Decoded :=
  match r with
  | VerifyErr err => Error (ErrValue err)
  | VerifyOk decoded =>
      if negb (data_to_boolean (identifier decoded)) then Error ErrTrue
      else Done decoded
  end.

Definition decode (g : TokenGenerator) (token : Token) : M (Outcome Decoded) :=
  _ <- emit (JwtVerify token) ;;
  ret (decode_callback (jwt_verify env token (jwtConfig g))).

Definition compare (g : TokenGenerator) (rnd : Entropy) (integrity : float)
    (request : Request) : M (Outcome bool) :=
  r <- calculate g rnd request ;;
  match r with
  | Done result => ret (Done (PrimFloat.abs (integrity - result) <? tolerance)%float)
  | Error e => ret (Error e)
  | Thrown => ret Thrown
  end.

Definition extractHeaders (request : Express.Request) : Request :=
  let h := Express.headers request in
  let c := Express.connection_ request in
  {| httpVersion := Express.httpVersion request;
     acceptEncoding := Express.accept_encoding h;
     contentType := Express.content_type h;
     connection := Express.connection h;
     remoteFamily := Express.remoteFamily c;
     remotePort := Express.remotePort c;
     userAgent := Express.user_agent h;
     acceptLanguage := Express.accept_language h;
     referer := Express.referer h;
     remoteAddress := Express.remoteAddress c |}.

(** [train]: one example pushed at the end of [this.trainingData]. *)
Definition train (g : TokenGenerator)
    (userAgent language referer requestData integrity : float) : TokenGenerator :=
  {| jwtConfig := jwtConfig g;
     delimit := delimit g;
     botMatch := botMatch g;
     browserMatch := browserMatch g;
     languageMatch := languageMatch g;
     idealRequestChain := idealRequestChain g;
     trainingData :=
       trainingData g
       ++ [ {| input := Features.Build userAgent language referer requestData;
               output_integrity := integrity |} ] |}.

End Methods.

(** ** The edit distance row by row

    The distances from [s] to every suffix of [t], each row computed from the
    row of the tail of [s]: what a library computes, and equal to
    [levenshtein]. *)

Module LevenshteinRows.

Fixpoint suffixes (t : jsstring) : list jsstring :=
  t :: match t with [] => [] | _ :: t' => suffixes t' end.

(** From [prev], the row of [s'], the row of [a :: s'], whose length is [n]. *)
Fixpoint next_row (a : N) (n : nat) (t : jsstring) (prev : list nat) : list nat :=
  match t, prev with
  | [], _ => [n]
  | b :: t', p0 :: prev' =>
      let rest := next_row a n t' prev' in
      let subst := if (a =? b)%N then 0%nat else 1%nat in
      Nat.min (Nat.min (S p0) (S (hd 0%nat rest))) (subst + hd 0%nat prev')%nat :: rest
  | _ :: _, [] => []
  end.

Fixpoint rows (s t : jsstring) : list nat :=
  match s with
  | [] => map length (suffixes t)
  | a :: s' => next_row a (length s) t (rows s' t)
  end.

Definition distance (s t : jsstring) : nat := hd 0%nat (rows s t).

End LevenshteinRows.

(** ** A concrete environment

    Stand-ins for the runtime and the libraries, to run the module on
    examples: fast-levenshtein's distance is the edit distance and its callback
    is a plain call; numbers print as the runtime prints whole numbers; the
    url parser, the scorer and the codec are simple ones of the same
    interface. *)

Module Sample.

(** Number::toString on zero, [NaN], the infinities and the whole numbers
    below [2^53], where the runtime prints every digit; the fraction of any
    other number is dropped. *)
Definition print_number (x : float) : jsstring :=
  match Prim2SF x with
  | S754_nan => js "NaN"
  | S754_infinity s => if s then js "-Infinity" else js "Infinity"
  | S754_zero _ => js "0"
  | S754_finite s m e =>
      let whole :=
        match e with
        | Z0 => Npos m
        | Zpos p => Npos m * 2 ^ Npos p
        | Zneg p => Npos m / 2 ^ Npos p
        end in
      (if s then js "-" else [])
      ++ js (NilZero.string_of_uint (N.to_uint whole))
  end.

(** A url parser for [scheme://authority...]: the authority runs to the next
    [/], [?] or [#]; user-info ends at [@], the port follows the last [:]. *)
Definition split_at (c : N) (s : jsstring) : option (jsstring * jsstring) :=
  (fix go (before s : jsstring) :=
     match s with
     | [] => None
     | x :: s' => if (x =? c)%N then Some (rev before, s') else go (x :: before) s'
     end) [] s.

Definition parse_url (s : jsstring) : UrlParts :=
  let none := {| protocol := None; slashes := false; auth := None;
                 host := None; port := None |} in
  match split_at 58 s with
  | Some (scheme, 47 :: 47 :: rest) =>
      let stop r :=
        match r with
        | c :: _ => (c =? 47) || (c =? 63) || (c =? 35)
        | [] => true
        end in
      let authority := take (default 0%nat (first_index stop rest)) rest in
      let '(user, hostport) :=
        match split_at 64 authority with
        | Some (u, h) => (Some u, h)
        | None => (None, authority)
        end in
      {| protocol := Some (scheme ++ [58]);
         slashes := true;
         auth := user;
         host := match hostport with [] => None | _ => Some hostport end;
         port := snd <$> split_at 58 hostport |}
  | _ => none
  end.

(** A scorer: the integrity of the training example nearest to the data (the
    first of the nearest ones), 0 without examples. *)
Definition gap (a b : Features.t) : float :=
  (abs (Features.userAgent a - Features.userAgent b)
   + abs (Features.language a - Features.language b)
   + abs (Features.referer a - Features.referer b)
   + abs (Features.requestData a - Features.requestData b))%float.

Definition nearest (seed : N) (examples : list TrainingExample) (data : Features.t)
  : float :=
  match examples with
  | [] => 0%float
  | e :: rest =>
      output_integrity
        (fold_left (fun best x =>
                      if (gap (input x) data <? gap (input best) data)%float
                      then x else best) rest e)
  end.

(** A codec: the signature is the SHA-256 digest of the secret, the
    identifier and the properties; verification recomputes it. *)
Definition data_text (d : jsdata) : jsstring :=
  match d with
  | DPrim p => to_string print_number p
  | DObj o =>
      concat (map (fun kv => js (fst kv) ++ [61] ++ to_string print_number (snd kv) ++ [59])
                  (map_to_list o))
  end.

Definition sign_text (config : JwtConfig) (d : Decoded) : jsstring :=
  Sha256.sha256_hex (secret config ++ [46] ++ data_text (identifier d)
                     ++ [46] ++ data_text (properties d)).

Definition option_prim (s : option jsstring) : prim :=
  match s with Some s => PStr s | None => PUndefined end.

Definition sign (claims : Claims) (config : JwtConfig) : Token :=
  let d := {| identifier := DPrim (PStr (claims_identifier claims));
              properties := claims_properties claims;
              iat := PNum 0%float;
              aud := option_prim (audience config);
              iss := option_prim (issuer config) |} in
  {| token_algorithm := algorithm config;
     token_payload := d;
     token_signature := sign_text config d |}.

Definition verify (token : Token) (config : JwtConfig) : VerifyResult :=
  if bool_decide (token_signature token = sign_text config (token_payload token))
  then VerifyOk (token_payload token)
  else VerifyErr (js "invalid signature").

Definition env : Env :=
  {| Number_toString := print_number;
     url_parse := parse_url;
     levenshtein_getAsync := fun s t => LevOk (N.of_nat (LevenshteinRows.distance s t));
     callback_this := globalObject;
     brain_train_run := nearest;
     jwt_sign := sign;
     jwt_verify := verify |}.

(** The generator and the request of the module's own test. *)
Definition trainingData : list TrainingExample :=
  [ {| input := Features.Build 1 1 1 0; output_integrity := 1%float |};
    {| input := Features.Build 0 0 0 1; output_integrity := 0x1.0624dd2f1a9fcp-10%float |} ].

Definition generator : TokenGenerator :=
  new_TokenGenerator (Some trainingData) (js "test") (Some (js "localhost"))
    (Some (js "localhost")) None None None None None None.

Definition request : Request :=
  {| httpVersion := Some (js "1.1");
     acceptEncoding := Some (js "gzip, deflate");
     contentType := Some (js "application/json");
     connection := Some (js "keep-alive");
     remoteFamily := PStr (js "IPv4");
     remotePort := PStr (js "443");
     userAgent := Some (js "Mozilla/5.0 (Windows NT 6.1) Gecko/20100101 Firefox/43.0");
     acceptLanguage := Some (js "en-US");
     referer := Some (js "http://localhost");
     remoteAddress := Some (js "127.0.0.1") |}.

Definition entropy : Entropy :=
  {| uuid_v4 := js "110ec58a-a0f2-4ac4-8393-c866d813b8d1"; net_seed := 0 |}.

Definition world : World := {| heap := ∅; trace := [] |}.

End Sample.

(** ** The generator as a state machine *)

(** A call of one of the generator's methods. *)
Inductive Op :=
| OpTrain (userAgent language referer requestData integrity : float)
| OpCreate (rnd : Entropy) (request : Request) (resourceId : prim)
    (properties : jsarg) (version : prim)
| OpDecode (token : Token)
| OpCompare (rnd : Entropy) (integrity : float) (request : Request)
| OpCalculate (rnd : Entropy) (request : Request)
| OpExtractHeaders (request : Express.Request).

(** The generator and the world after a call. *)
Definition step (env : Env) (st : TokenGenerator * World) (op : Op)
  : TokenGenerator * World :=
  let '(g, w) := st in
  match op with
  | OpTrain userAgent language referer requestData integrity =>
      (train g userAgent language referer requestData integrity, w)
  | OpCreate rnd request resourceId properties version =>
      (g, snd (create env g rnd request resourceId properties version w))
  | OpDecode token => (g, snd (decode env g token w))
  | OpCompare rnd integrity request => (g, snd (compare env g rnd integrity request w))
  | OpCalculate rnd request => (g, snd (calculate env g rnd request w))
  | OpExtractHeaders request => (g, w)
  end.

Definition run (env : Env) (ops : list Op) (st : TokenGenerator * World)
  : TokenGenerator * World :=
  fold_left (step env) ops st.

(** The examples the [train] calls among [ops] submit, in the order of the calls. *)
Fixpoint submitted (ops : list Op) : list TrainingExample :=
  match ops with
  | [] => []
  | OpTrain userAgent language referer requestData integrity :: ops' =>
      {| input := Features.Build userAgent language referer requestData;
         output_integrity := integrity |} :: submitted ops'
  | _ :: ops' => submitted ops'
  end.

(** ** Notions the properties are stated with *)

(** How many of the six sub-tests of [userAgentTest] hold for [agent]. *)
Definition passed_checks (agent : jsstring) (botMatch browserMatch : option RegExp) : N :=
  N.of_nat (length (List.filter id
    [ (search agent botMatch =? -1)%Z;
      negb (search agent browserMatch =? -1)%Z;
      contains 46 agent; contains 40 agent; contains 41 agent; contains 47 agent ])).

(** A field that is missing reads as the empty string. *)
Definition text_or_empty (f : option jsstring) : jsstring := default [] f.

(** A connection field that is missing ([undefined] or [null]) read as the
    empty string, any other one as its text. *)
Definition prim_text_or_empty (print : float -> jsstring) (p : prim) : jsstring :=
  match p with
  | PUndefined | PNull => []
  | _ => to_string print p
  end.

(** The request chain with every missing field contributing the empty string. *)
Definition chain_missing_as_empty (env : Env) (g : TokenGenerator) (request : Request)
  : jsstring :=
  take 5 (text_or_empty (httpVersion request)) ++ delimit g
  ++ take 32 (text_or_empty (acceptEncoding request)) ++ delimit g
  ++ take 32 (text_or_empty (contentType request)) ++ delimit g
  ++ take 16 (text_or_empty (connection request)) ++ delimit g
  ++ prim_text_or_empty (Number_toString env) (remoteFamily request) ++ delimit g
  ++ prim_text_or_empty (Number_toString env) (remotePort request) ++ delimit g.

(** The product of the character codes, exact. *)
Definition exact_product (ip : jsstring) : N := fold_left N.mul ip 1.

(** The product of the character codes in unsigned arithmetic of [width] bits,
    every multiplication wrapping around. *)
Definition wraparound_product (width : N) (ip : jsstring) : N :=
  fold_left (fun pepper c => (pepper * c) mod 2 ^ width) ip 1.

(** The natural number a Number is, when it is one. *)
Definition whole_value (x : float) : option N :=
  match Prim2SF x with
  | S754_zero _ => Some 0
  | S754_finite false m e =>
      match e with
      | Z0 => Some (Npos m)
      | Zpos p => Some (Npos m * 2 ^ Npos p)
      | Zneg p => if Npos m mod 2 ^ Npos p =? 0 then Some (Npos m / 2 ^ Npos p) else None
      end
  | _ => None
  end.

(** The properties map a caller passes: the properties of the object, or no
    property when the argument is left out (falsy). A truthy primitive is no
    properties map. *)
Definition properties_of (h : gmap positive (gmap string prim)) (a : jsarg)
  : option (gmap string prim) :=
  match a with
  | ArgObj l => h !! l
  | ArgPrim p => if to_boolean p then None else Some ∅
  end.

(** A string of lower-case hexadecimal digits. *)
Definition is_hex_string (s : jsstring) : Prop := Forall (fun c => Sha256.is_hex c = true) s.

(** The scorer is run, a text is hashed or a token is signed. *)
Definition produces_result (e : Event) : bool :=
  match e with
  | NetRun _ | HashUpdate _ | JwtSign _ => true
  | _ => false
  end.

(** A library whose distance computation reports an error. *)
Definition failing_distance_env : Env :=
  {| Number_toString := Number_toString Sample.env;
     url_parse := url_parse Sample.env;
     levenshtein_getAsync := fun _ _ => LevErr (js "invalid comparison");
     callback_this := callback_this Sample.env;
     brain_train_run := brain_train_run Sample.env;
     jwt_sign := jwt_sign Sample.env;
     jwt_verify := jwt_verify Sample.env |}.

(** ** Values the properties are stated and tried on *)

(** Claims that carry an identifier field, the empty string. *)
Definition empty_identifier_claims : Claims :=
  {| claims_identifier := []; claims_properties := DObj ∅ |}.

(** The generator with other matchers. *)
Definition with_matchers (g : TokenGenerator) (bot browser language : RegExp)
  : TokenGenerator :=
  {| jwtConfig := jwtConfig g;
     delimit := delimit g;
     botMatch := bot;
     browserMatch := browser;
     languageMatch := language;
     idealRequestChain := idealRequestChain g;
     trainingData := trainingData g |}.

(** The request of the module's test on a connection whose family is missing. *)
Definition request_without_family : Request :=
  {| httpVersion := httpVersion Sample.request;
     acceptEncoding := acceptEncoding Sample.request;
     contentType := contentType Sample.request;
     connection := connection Sample.request;
     remoteFamily := PUndefined;
     remotePort := remotePort Sample.request;
     userAgent := userAgent Sample.request;
     acceptLanguage := acceptLanguage Sample.request;
     referer := referer Sample.request;
     remoteAddress := remoteAddress Sample.request |}.

(** The object [create] works on: the caller's, or a new one when the
    argument is falsy. *)
Definition working_properties (w : World) (properties : jsarg) : jsarg :=
  if arg_to_boolean properties then properties else ArgObj (fresh (dom (heap w))).

(** The store once [create] has chosen that object. *)
Definition working_heap (w : World) (properties : jsarg) : gmap positive (gmap string prim) :=
  if arg_to_boolean properties then heap w else <[fresh (dom (heap w)) := ∅]> (heap w).

(** The properties of an object after [create] has set [version] and
    [integrity] on it. *)
Definition stamped (o : gmap string prim) (version : prim) (score : float)
  : gmap string prim :=
  <["integrity" := PNum score]> (<["version" := version]> o).

(** The properties object of a caller: an [integrity] of its own and a name. *)
Definition caller_properties : gmap string prim :=
  {[ "integrity" := PStr (js "high"); "name" := PStr (js "janus") ]}.

Definition caller_world : World :=
  {| heap := {[ 1%positive := caller_properties ]}; trace := [] |}.

Definition is_train (op : Op) : bool :=
  match op with OpTrain _ _ _ _ _ => true | _ => false end.

(** The number of [train] calls among [ops]. *)
Definition train_calls (ops : list Op) : nat := length (List.filter is_train ops).

(** ** Further notions: the signals, the store and the runs *)

(** How many of the four punctuation sub-tests of [userAgentTest] hold: a
    period, an opening and a closing parenthesis, a slash. *)
Definition punctuation_checks (agent : jsstring) : N :=
  N.of_nat (length (List.filter id
    [contains 46 agent; contains 40 agent; contains 41 agent; contains 47 agent])).

(** A Number between 0 and 1, the bounds included. *)
Definition in_unit_interval (x : float) : bool := ((0 <=? x) && (x <=? 1))%float.

(** A Number that is neither [NaN] nor infinite. *)
Definition is_finite_number (x : float) : bool :=
  match Prim2SF x with
  | S754_zero _ | S754_finite _ _ _ => true
  | _ => false
  end.

(** What the JSON text of a payload gives back for the value of a property:
    an [undefined] value is left out, a Number that is not finite comes back as
    [null], a zero comes back without its sign, and any other value comes back
    as it was (strings are taken to be well-formed). *)
Definition json_prim (p : prim) : option prim :=
  match p with
  | PUndefined => None
  | PNum x =>
      Some (if is_finite_number x
            then (if PrimFloat.is_zero x then PNum 0%float else PNum x)
            else PNull)
  | _ => Some p
  end.

(** The same for the [properties] of the claims: an object entry by entry, a
    primitive by itself (a property that was left out reads as [undefined]). *)
Definition json_data (d : jsdata) : jsdata :=
  match d with
  | DObj o => DObj (omap json_prim o)
  | DPrim p => DPrim (default PUndefined (json_prim p))
  end.

(** The codec verifies the token it signs for [claims] under [config], and
    gives back the identifier and the properties as JSON carries them. *)
Definition codec_carries (env : Env) (claims : Claims) (config : JwtConfig) : Prop :=
  exists decoded,
    jwt_verify env (jwt_sign env claims config) config = VerifyOk decoded
    /\ identifier decoded = DPrim (PStr (claims_identifier claims))
    /\ properties decoded = json_data (claims_properties claims).

(** The request with another remote address. *)
Definition with_remoteAddress (request : Request) (address : option jsstring) : Request :=
  {| httpVersion := httpVersion request;
     acceptEncoding := acceptEncoding request;
     contentType := contentType request;
     connection := connection request;
     remoteFamily := remoteFamily request;
     remotePort := remotePort request;
     userAgent := userAgent request;
     acceptLanguage := acceptLanguage request;
     referer := referer request;
     remoteAddress := address |}.

(** Two letters stand side by side somewhere in the string. *)
Definition has_letter_pair (s : jsstring) : Prop :=
  exists before a b after,
    s = before ++ a :: b :: after /\ is_letter a = true /\ is_letter b = true.

(** The call is a [create] that is given the object at [l] as properties. *)
Definition creates_on (l : positive) (op : Op) : Prop :=
  match op with
  | OpCreate _ _ _ (ArgObj l') _ => l' = l
  | _ => False
  end.

(** A generator made by the constructor, every optional argument given or
    left out. *)
Definition constructed (g : TokenGenerator) : Prop :=
  exists trainingData jwtSecret jwtIssuer jwtAudience jwtAlgorithm delimit
         botMatch browserMatch languageMatch idealRequestChain,
    g = new_TokenGenerator trainingData jwtSecret jwtIssuer jwtAudience jwtAlgorithm
          delimit botMatch browserMatch languageMatch idealRequestChain.

(** A request object with no field set. *)
Definition empty_request : Request :=
  {| httpVersion := None; acceptEncoding := None; contentType := None;
     connection := None; remoteFamily := PUndefined; remotePort := PUndefined;
     userAgent := None; acceptLanguage := None; referer := None;
     remoteAddress := None |}.

(** ** The training store by reference

    [train] pushes an object, and [create] writes on the object it is handed:
    when that object is one of the store, the store changes. Here the
    examples are objects of the store, held in the array by reference. An
    object is kept in two parts, its properties of primitive value and its
    properties that refer to another object. *)

Module ByReference.

(** The objects, and the elements of [this.trainingData], an array of
    objects. *)
Record Store := {
  objects : gmap positive (gmap string prim);
  links : gmap positive (gmap string positive);
  examples : list positive;
}.

(** The network library on a store: [net seed s data] is the [integrity] a
    network freshly trained on the array of [s], read through its references,
    gives for [data]. The library is taken to read the store only. *)
Definition Scorer : Type := N -> Store -> Features.t -> float.

(** The environment in which the network is trained on the store [s]; the
    examples a generator record lists by value play no part in it. *)
Definition reading (env : Env) (net : Scorer) (s : Store) : Env :=
  {| Number_toString := Number_toString env;
     url_parse := url_parse env;
     levenshtein_getAsync := levenshtein_getAsync env;
     callback_this := callback_this env;
     brain_train_run := fun seed _ data => net seed s data;
     jwt_sign := jwt_sign env;
     jwt_verify := jwt_verify env |}.

(** [o.k] for the object [o] at [l], when it is a primitive. *)
Definition property (s : Store) (l : positive) (k : string) : option prim :=
  objects s !! l ≫= (fun o => o !! k).

(** [o.k] for the object [o] at [l], when it is an object. *)
Definition link (s : Store) (l : positive) (k : string) : option positive :=
  links s !! l ≫= (fun o => o !! k).

(** [train]: three new objects, the example, its input and its output; the
    example is pushed at the end of the array. *)
Definition train (userAgent language referer requestData integrity : float) (s : Store)
  : Store :=
  let example := fresh (dom (objects s)) in
  let h1 := <[example := ∅]> (objects s) in
  let input := fresh (dom h1) in
  let h2 := <[input := {[ "userAgent" := PNum userAgent; "language" := PNum language;
                          "referer" := PNum referer;
                          "requestData" := PNum requestData ]}]> h1 in
  let output := fresh (dom h2) in
  {| objects := <[output := {[ "integrity" := PNum integrity ]}]> h2;
     links := <[example := {[ "input" := input; "output" := output ]}]> (links s);
     examples := examples s ++ [example] |}.

(** [create] on the store: the method above, its network trained on the
    store; the two assignments replace whatever the two keys held, a reference
    to an object included. *)
Definition create (net : Scorer) (env : Env) (g : TokenGenerator) (rnd : Entropy)
    (request : Request) (resourceId : prim) (properties : jsarg) (version : prim)
    (s : Store) : Store :=
  let r := create (reading env net s) g rnd request resourceId properties version
             {| heap := objects s; trace := [] |} in
  {| objects := heap (snd r);
     links := match fst r, properties with
              | Done _, ArgObj l =>
                  alter (fun o => delete "integrity" (delete "version" o)) l (links s)
              | _, _ => links s
              end;
     examples := examples s |}.

(** The store after a call: [train] and [create] write, the other methods
    hand the store to a library or do not touch it. *)
Definition step (net : Scorer) (env : Env) (g : TokenGenerator) (s : Store) (op : Op)
  : Store :=
  match op with
  | OpTrain userAgent language referer requestData integrity =>
      train userAgent language referer requestData integrity s
  | OpCreate rnd request resourceId properties version =>
      create net env g rnd request resourceId properties version s
  | OpDecode _ | OpCompare _ _ _ | OpCalculate _ _ | OpExtractHeaders _ => s
  end.

Definition run (net : Scorer) (env : Env) (g : TokenGenerator) (ops : list Op) (s : Store)
  : Store :=
  fold_left (step net env g) ops s.

(** The example at [l] as a network that reads the four signals and the
    integrity sees it. *)
Definition read_number (o : gmap string prim) (k : string) : float :=
  match o !! k with Some (PNum x) => x | _ => PrimFloat.nan end.

Definition read_example (s : Store) (l : positive) : option TrainingExample :=
  li ← link s l "input";
  lo ← link s l "output";
  i ← objects s !! li;
  o ← objects s !! lo;
  Some {| input := Features.Build (read_number i "userAgent") (read_number i "language")
                     (read_number i "referer") (read_number i "requestData");
          output_integrity := read_number o "integrity" |}.

(** A scorer on the store, the one of [Sample] on the examples as read. *)
Definition sample_scorer : Scorer :=
  fun seed s data => Sample.nearest seed (omap (read_example s) (examples s)) data.

Definition empty_store : Store := {| objects := ∅; links := ∅; examples := [] |}.

End ByReference.

(** No [create] among [ops] is handed the object at [l]. *)
Definition untouched (l : positive) (ops : list Op) : Prop :=
  Forall (fun op => ~ creates_on l op) ops.

(** The call is a [create] that is handed an object as properties. *)
Definition hands_object (op : Op) : Prop :=
  match op with
  | OpCreate _ _ _ (ArgObj _) _ => True
  | _ => False
  end.

(** The object holds the four signals of [f]. *)
Definition reads_features (o : gmap string prim) (f : Features.t) : Prop :=
  o !! "userAgent" = Some (PNum (Features.userAgent f))
  /\ o !! "language" = Some (PNum (Features.language f))
  /\ o !! "referer" = Some (PNum (Features.referer f))
  /\ o !! "requestData" = Some (PNum (Features.requestData f)).

(** The object at [l] is still there in [s'], and holds under every key but
    [version] and [integrity] what it held in [s]. *)
Definition kept (s s' : ByReference.Store) (l : positive) : Prop :=
  is_Some (ByReference.objects s' !! l)
  /\ (forall k, k <> "version"%string -> k <> "integrity"%string ->
        ByReference.property s' l k = ByReference.property s l k
        /\ ByReference.link s' l k = ByReference.link s l k).

(** The object at [l] in [s'] is the example [e] submitted during [ops]: it
    and the two objects it refers to are not of [s]; its input holds the
    signals of [e]; its output is [{ integrity }] as submitted, unless a
    [create] among [ops] was handed that output object. *)
Definition appended (s s' : ByReference.Store) (ops : list Op) (l : positive)
    (e : TrainingExample) : Prop :=
  ByReference.objects s !! l = None
  /\ exists li lo,
       ByReference.link s' l "input" = Some li
       /\ ByReference.link s' l "output" = Some lo
       /\ ByReference.objects s !! li = None /\ ByReference.objects s !! lo = None
       /\ (exists i, ByReference.objects s' !! li = Some i /\ reads_features i (input e))
       /\ (untouched lo ops ->
           ByReference.objects s' !! lo
           = Some {[ "integrity" := PNum (output_integrity e) ]}).

(** A generator constructed without training data: its array is empty. *)
Definition untrained : TokenGenerator :=
  new_TokenGenerator None (js "test") (Some (js "localhost")) (Some (js "localhost"))
    None None None None None None.

(** Two [train] calls on that generator. *)
Definition two_trained : ByReference.Store :=
  ByReference.run ByReference.sample_scorer Sample.env untrained
    [OpTrain 1 1 1 0 1; OpTrain 0 0 0 1 0x1p-2] ByReference.empty_store.

(** [create] for the request of the module's test, handed the object at [l]. *)
Definition create_handed (l : positive) : Op :=
  OpCreate Sample.entropy Sample.request (PStr (js "testResourceId")) (ArgObj l)
    (PStr (js "1.0")).

(** ** Proof automation *)

#[global] Arguments Sha256.sha256_hex : simpl never.
#[global] Arguments identifier_text : simpl never.
#[global] Arguments request_chain : simpl never.
#[global] Arguments request_features : simpl never.
#[global] Arguments fresh : simpl never.
#[global] Arguments calculate : simpl never.

Ltac unfold_m := unfold bind, ret, emit, new_object, set_property, snapshot in *.

(** Reads and writes of one object after another. *)
Ltac simplify_stores :=
  repeat (progress (rewrite ?lookup_insert_eq, ?insert_insert_eq; cbn)).

(** * Properties *)

(** ** The hash and the edit distance *)

Example sha256_empty :
  Sha256.sha256_hex (js "")
  = js "e3b0c44298fc1c149afbf4c8996fb92427ae41e4649b934ca495991b7852b855".
Proof. vm_compute. reflexivity. Qed.

Example sha256_abc :
  Sha256.sha256_hex (js "abc")
  = js "ba7816bf8f01cfea414140de5dae2223b00361a396177a9cb410ff61f20015ad".
Proof. vm_compute. reflexivity. Qed.

Example sha256_two_blocks :
  Sha256.sha256_hex (replicate 119 97)
  = js "31eba51c313a5c08226adf18d4a359cfdfd8d2e816b13f4af952f7ea6584dcfb".
Proof. vm_compute. reflexivity. Qed.

Example sha256_utf8 :
  Sha256.sha256_hex [10032; 233]
  = js "2acc6219c4e18ea0c21e597eb8e69082a9ac38a337c1cceeef5b5df1969e245f".
Proof. vm_compute. reflexivity. Qed.

Example levenshtein_kitten :
  levenshtein (js "kitten") (js "sitting") = 3%nat.
Proof. vm_compute. reflexivity. Qed.

(** The distance to the empty string is the length. *)
Lemma levenshtein_nil_r (s : jsstring) : levenshtein s [] = length s.
Proof. destruct s; reflexivity. Qed.

(** The recurrence of the edit distance: delete, insert or substitute. *)
Lemma levenshtein_cons_cons (a b : N) (s t : jsstring) :
  levenshtein (a :: s) (b :: t)
  = Nat.min (Nat.min (S (levenshtein s (b :: t))) (S (levenshtein (a :: s) t)))
            ((if (a =? b)%N then 0%nat else 1%nat) + levenshtein s t)%nat.
Proof. reflexivity. Qed.

Lemma hd_suffixes {A} (f : jsstring -> A) (d : A) (t : jsstring) :
  hd d (map f (LevenshteinRows.suffixes t)) = f t.
Proof. destruct t; reflexivity. Qed.

Lemma next_row_spec (a : N) (s t : jsstring) :
  LevenshteinRows.next_row a (S (length s)) t
    (map (levenshtein s) (LevenshteinRows.suffixes t))
  = map (levenshtein (a :: s)) (LevenshteinRows.suffixes t).
Proof.
  induction t as [|b t IH].
  - reflexivity.
  - cbn [LevenshteinRows.suffixes map LevenshteinRows.next_row].
    rewrite IH, !hd_suffixes, levenshtein_cons_cons. reflexivity.
Qed.

Lemma rows_spec (s t : jsstring) :
  LevenshteinRows.rows s t = map (levenshtein s) (LevenshteinRows.suffixes t).
Proof.
  induction s as [|a s IH].
  - reflexivity.
  - cbn [LevenshteinRows.rows]. rewrite IH. apply next_row_spec.
Qed.

(** The row-by-row computation gives the edit distance. *)
Lemma distance_spec (s t : jsstring) : LevenshteinRows.distance s t = levenshtein s t.
Proof. unfold LevenshteinRows.distance. rewrite rows_spec. apply hd_suffixes. Qed.

(** ** Running the methods *)

(** What [calculate] does: it trains the network, asks for the distance, and
    either passes the error on or runs the network on the features. *)
Lemma calculate_run (env : Env) (g : TokenGenerator) (rnd : Entropy) (request : Request)
    (w : World) :
  calculate env g rnd request w
  = let chain := request_chain env g request in
    let asked := (trace w ++ [NetTrain (trainingData g)])
                 ++ [LevenshteinGet (idealRequestChain g) chain] in
    match levenshtein_getAsync env (idealRequestChain g) chain with
    | LevErr err => (Error (ErrValue err), {| heap := heap w; trace := asked |})
    | LevOk distance =>
        let data := request_features env (callback_this env) request chain distance in
        (Done (brain_train_run env (net_seed rnd) (trainingData g) data),
         {| heap := heap w; trace := asked ++ [NetRun data] |})
    end.
Proof.
  unfold calculate, calculate_callback. unfold_m. cbn.
  destruct (levenshtein_getAsync env _ _); reflexivity.
Qed.

(** The score does not depend on the world [calculate] starts in. *)
Lemma calculate_outcome_any_world (env : Env) (g : TokenGenerator) (rnd : Entropy)
    (request : Request) (w1 w2 : World) :
  fst (calculate env g rnd request w1) = fst (calculate env g rnd request w2).
Proof.
  rewrite !calculate_run. cbn.
  destruct (levenshtein_getAsync env _ _); reflexivity.
Qed.

(** [calculate] leaves the store as it was, and never throws. *)
Lemma calculate_heap (env : Env) (g : TokenGenerator) (rnd : Entropy) (request : Request)
    (w : World) :
  heap (snd (calculate env g rnd request w)) = heap w
  /\ fst (calculate env g rnd request w) <> Thrown.
Proof.
  rewrite calculate_run. cbn.
  destruct (levenshtein_getAsync env _ _); cbn; split; congruence.
Qed.

(** ** Comparison within the tolerance *)

(** C2. When the score of request [r] is computed, [compare s r] hands to its
    success continuation the boolean [|s - score| < 0.05], where [score] is the
    score [calculate] computes for [r]; so it reports [true] exactly when the
    recorded and the fresh score are within the tolerance. *)
Theorem compare_reports_tolerance (env : Env) (g : TokenGenerator) (rnd : Entropy)
    (s : float) (r : Request) (w w' : World) (score : float) :
  calculate env g rnd r w = (Done score, w') ->
  compare env g rnd s r w = (Done (PrimFloat.abs (s - score) <? tolerance)%float, w')
  /\ (compare env g rnd s r w = (Done true, w')
      <-> (PrimFloat.abs (s - score) <? tolerance)%float = true).
Proof.
  intros Hcalc.
  assert (Hcmp : compare env g rnd s r w
                 = (Done (PrimFloat.abs (s - score) <? tolerance)%float, w')).
  { unfold compare, bind. rewrite Hcalc. reflexivity. }
  split; [exact Hcmp|].
  rewrite Hcmp. split.
  - intros H. injection H as H. exact H.
  - intros H. rewrite H. reflexivity.
Qed.

(** C2, on the request of the module's test and a recorded score of 0.97. *)
Lemma compare_reports_tolerance_witness :
  compare Sample.env Sample.generator Sample.entropy 0x1.f0a3d70a3d70ap-1%float
    Sample.request Sample.world
  = (Done true, snd (calculate Sample.env Sample.generator Sample.entropy
                       Sample.request Sample.world)).
Proof.
  refine (match compare_reports_tolerance Sample.env Sample.generator Sample.entropy
                  0x1.f0a3d70a3d70ap-1%float Sample.request Sample.world
                  (snd (calculate Sample.env Sample.generator Sample.entropy
                          Sample.request Sample.world)) 1%float _ with
          | conj H _ => _
          end).
  - vm_compute. reflexivity.
  - exact H.
Defined.

(** ** A failing distance computation *)

(** [create] before its callback runs: the object it may allocate for a
    missing [properties] argument leaves every object of the store alone. *)
Lemma new_object_keeps (w : World) (l : positive) (o : gmap string prim) :
  heap w !! l = Some o ->
  heap (snd (new_object w)) !! l = Some o.
Proof.
  intros Hl. unfold new_object. cbn.
  rewrite lookup_insert_ne; [exact Hl|].
  intros Heq. pose proof (is_fresh (dom (heap w))) as Hfresh.
  rewrite Heq in Hfresh. apply Hfresh. apply elem_of_dom. eauto.
Qed.

(** C8. When the distance computation reports an error, [calculate],
    [compare] and [create] each end in their failure continuation with that
    error; the only library calls they made are the training of the network
    and the distance request (the network is not run on any features, nothing
    is hashed, nothing is signed), and every object of the store, the
    caller's properties included, is as it was. *)
Theorem distance_error_fails_scoring (env : Env) (g : TokenGenerator) (rnd : Entropy)
    (request : Request) (err : ErrorValue) (w : World) :
  levenshtein_getAsync env (idealRequestChain g) (request_chain env g request) = LevErr err ->
  let calls := [NetTrain (trainingData g);
                LevenshteinGet (idealRequestChain g) (request_chain env g request)] in
  Forall (fun e => produces_result e = false) calls
  /\ (exists w', calculate env g rnd request w = (Error (ErrValue err), w')
                 /\ trace w' = trace w ++ calls /\ heap w' = heap w)
  /\ (forall s, exists w',
        compare env g rnd s request w = (Error (ErrValue err), w')
        /\ trace w' = trace w ++ calls /\ heap w' = heap w)
  /\ (forall resourceId properties version, exists w',
        create env g rnd request resourceId properties version w
        = (Error (ErrValue err), w')
        /\ trace w' = trace w ++ calls
        /\ forall l o, heap w !! l = Some o -> heap w' !! l = Some o).
Proof.
  intros Herr calls.
  assert (Hcalc : forall w0, calculate env g rnd request w0
            = (Error (ErrValue err), {| heap := heap w0; trace := trace w0 ++ calls |})).
  { intros w0. rewrite calculate_run. cbn zeta. rewrite Herr.
    unfold calls. rewrite <- app_assoc. reflexivity. }
  split; [repeat constructor|]. split; [|split].
  - eexists. rewrite Hcalc. split; [reflexivity|]. split; reflexivity.
  - intros s. eexists. unfold compare, bind. rewrite Hcalc.
    split; [reflexivity|]. split; reflexivity.
  - intros resourceId properties version. unfold create, bind.
    destruct (negb (arg_to_boolean properties)) eqn:Hfalsy.
    + destruct (new_object w) as [l w0] eqn:Hnew. cbn [ret]. rewrite Hcalc.
      eexists. split; [reflexivity|]. cbn [trace heap].
      assert (Hw0 : w0 = snd (new_object w)) by (rewrite Hnew; reflexivity).
      split.
      * rewrite Hw0. reflexivity.
      * intros l' o Hl'. rewrite Hw0. apply new_object_keeps. exact Hl'.
    + cbn [ret]. rewrite Hcalc. eexists. split; [reflexivity|].
      split; [reflexivity|]. intros l' o Hl'. exact Hl'.
Qed.

(** C8, on the request of the module's test and a distance library that
    reports an error. *)
Lemma distance_error_fails_scoring_witness :
  exists w',
    calculate failing_distance_env Sample.generator Sample.entropy Sample.request Sample.world
    = (Error (ErrValue (js "invalid comparison")), w')
    /\ trace w'
       = [NetTrain Sample.trainingData;
          LevenshteinGet defaultIdealRequestChain
            (request_chain failing_distance_env Sample.generator Sample.request)].
Proof.
  destruct (distance_error_fails_scoring failing_distance_env Sample.generator
              Sample.entropy Sample.request (js "invalid comparison") Sample.world
              eq_refl) as (_ & [w' (Hcalc & Htrace & _)] & _).
  exists w'. split; [exact Hcalc|exact Htrace].
Defined.

(** ** Decoding *)

(** C3, as stated, fails: a token that verifies and whose claims do have an
    [identifier] field, holding the empty string, is refused all the same. *)
Lemma decode_refuses_empty_identifier :
  let token := jwt_sign Sample.env empty_identifier_claims (jwtConfig Sample.generator) in
  exists decoded,
    jwt_verify Sample.env token (jwtConfig Sample.generator) = VerifyOk decoded
    /\ identifier decoded = DPrim (PStr [])
    /\ identifier decoded <> DPrim PUndefined
    /\ fst (decode Sample.env Sample.generator token Sample.world) = Error ErrTrue.
Proof.
  cbv zeta. eexists. split; [vm_compute; reflexivity|].
  split; [reflexivity|]. split; [discriminate|]. vm_compute. reflexivity.
Qed.

(** C3, amended. [decode] asks the codec to verify the token and then ends in
    exactly one way: in its failure continuation when the codec reports an
    error (with that error) or when the decoded identifier is falsy (missing,
    [null], the empty string, zero, [NaN] or [false]; with [true]), and in its
    success continuation with the whole decoded claims otherwise. It never
    throws and leaves the store alone. *)
Theorem decode_outcome (env : Env) (g : TokenGenerator) (token : Token) (w : World) :
  let verified := jwt_verify env token (jwtConfig g) in
  let outcome := fst (decode env g token w) in
  snd (decode env g token w) = {| heap := heap w; trace := trace w ++ [JwtVerify token] |}
  /\ (forall decoded,
        outcome = Done decoded
        <-> verified = VerifyOk decoded /\ data_to_boolean (identifier decoded) = true)
  /\ (forall e,
        outcome = Error e
        <-> (exists err, verified = VerifyErr err /\ e = ErrValue err)
            \/ (exists decoded, verified = VerifyOk decoded
                                /\ data_to_boolean (identifier decoded) = false
                                /\ e = ErrTrue))
  /\ outcome <> Thrown.
Proof.
  cbv zeta. unfold decode, decode_callback, bind, emit, ret. cbn [fst snd].
  split; [reflexivity|].
  destruct (jwt_verify env token (jwtConfig g)) as [err|decoded].
  - split; [|split].
    + intros d. split; [discriminate|]. intros [H _]. discriminate.
    + intros e. split.
      * intros H. injection H as <-. left. eauto.
      * intros [(err' & H & ->)|(d & H & _)]; [|discriminate].
        injection H as <-. reflexivity.
    + discriminate.
  - destruct (data_to_boolean (identifier decoded)) eqn:Hid; cbn [negb].
    + split; [|split].
      * intros d. split.
        -- intros H. injection H as <-. split; [reflexivity|exact Hid].
        -- intros [H _]. injection H as <-. reflexivity.
      * intros e. split; [discriminate|].
        intros [(err' & H & _)|(d & H & Hd & _)]; [discriminate|].
        injection H as <-. congruence.
      * discriminate.
    + split; [|split].
      * intros d. split; [discriminate|]. intros [H Hd]. injection H as <-. congruence.
      * intros e. split.
        -- intros H. injection H as <-. right. eauto.
        -- intros [(err' & H & _)|(d & _ & _ & ->)]; [discriminate|reflexivity].
      * discriminate.
Qed.

(** ** The user-agent score *)

(** Two Numbers that are written differently differ. *)
Lemma float_neq (x y : float) : Prim2SF x <> Prim2SF y -> x <> y.
Proof. intros H Heq. apply H. rewrite Heq. reflexivity. Qed.

(** C4, as stated, fails: a user-agent of one space is not empty, and one of
    its six sub-tests holds (it matches no bot pattern), yet its score is 0 and
    not 1/6. *)
Lemma blank_user_agent_scores_zero :
  js " " <> []
  /\ passed_checks (js " ") (Some defaultBotMatch) (Some defaultBrowserMatch) = 1
  /\ userAgentTest (Some (js " ")) (Some defaultBotMatch) (Some defaultBrowserMatch)
     = 0%float
  /\ userAgentTest (Some (js " ")) (Some defaultBotMatch) (Some defaultBrowserMatch)
     <> (Number_of_N 1 / 6)%float.
Proof.
  split; [discriminate|]. split; [reflexivity|]. split; [reflexivity|].
  apply float_neq. vm_compute. discriminate.
Qed.

(** The sum of the six bits is the number of sub-tests that hold. *)
Lemma six_bits_count (b1 b2 b3 b4 b5 b6 : bool) :
  (bit b1 + bit b2 + bit b3 + bit b4 + bit b5 + bit b6)%float
  = Number_of_N (N.of_nat (length (List.filter id [b1; b2; b3; b4; b5; b6]))).
Proof. destruct b1, b2, b3, b4, b5, b6; vm_compute; reflexivity. Qed.

(** C4, amended. For a user-agent with a character that is not white space,
    [userAgentTest] returns k/6, where k counts the sub-tests that hold with
    the two matchers it is given: no match of the bot pattern, a match of the
    browser pattern, and the presence of a period, of each parenthesis and of
    a slash. A missing, empty or white-space user-agent scores 0. *)
Theorem userAgentTest_counts_checks (agent : option jsstring)
    (botMatch browserMatch : option RegExp) :
  (forall a, agent = Some a -> is_blank a = false ->
     userAgentTest agent botMatch browserMatch
     = (Number_of_N (passed_checks a botMatch browserMatch) / 6)%float)
  /\ (agent = None \/ (exists a, agent = Some a /\ is_blank a = true) ->
      userAgentTest agent botMatch browserMatch = 0%float).
Proof.
  split.
  - intros a -> Hblank. unfold userAgentTest, passed_checks. rewrite Hblank.
    rewrite six_bits_count. reflexivity.
  - intros [->|(a & -> & Hblank)]; [reflexivity|].
    unfold userAgentTest. rewrite Hblank. reflexivity.
Qed.

(** C4, amended, on the user-agent of the module's test: it passes all six
    sub-tests of the default matchers. *)
Lemma userAgentTest_counts_checks_witness :
  userAgentTest (userAgent Sample.request) (Some defaultBotMatch) (Some defaultBrowserMatch)
  = (Number_of_N 6 / 6)%float.
Proof.
  exact (proj1 (userAgentTest_counts_checks (userAgent Sample.request)
                  (Some defaultBotMatch) (Some defaultBrowserMatch))
           _ eq_refl eq_refl).
Defined.

(** Inside the callback of [calculate], [this] is the receiver the library
    gives and not the generator: the matchers the generator was configured
    with play no part in the score. *)
Theorem calculate_ignores_configured_matchers (env : Env) (g : TokenGenerator)
    (bot browser language : RegExp) (rnd : Entropy) (request : Request) (w : World) :
  calculate env (with_matchers g bot browser language) rnd request w
  = calculate env g rnd request w.
Proof. rewrite !calculate_run. reflexivity. Qed.

(** For the request of the module's test the user-agent passes all six
    sub-tests of the configured matchers, which bound to the generator the
    callback would count, and the signal that reaches the network is 5/6: read
    from the global object both matchers are [undefined], which matches
    anywhere, so the bot test fails whatever the user-agent. *)
Example scoring_loses_the_bot_test :
  passed_checks (js "Mozilla/5.0 (Windows NT 6.1) Gecko/20100101 Firefox/43.0")
    (Some (botMatch Sample.generator)) (Some (browserMatch Sample.generator)) = 6
  /\ Features.userAgent
       (request_features Sample.env (generator_receiver Sample.generator) Sample.request
          defaultIdealRequestChain 0)
     = (Number_of_N 6 / 6)%float
  /\ exists data w',
       calculate Sample.env Sample.generator Sample.entropy Sample.request Sample.world
       = (Done 1%float, w')
       /\ last (trace w') = Some (NetRun data)
       /\ Features.userAgent data = (Number_of_N 5 / 6)%float.
Proof.
  split; [vm_compute; reflexivity|]. split; [vm_compute; reflexivity|].
  eexists. eexists. split; [vm_compute; reflexivity|].
  split; [reflexivity|]. vm_compute. reflexivity.
Qed.

(** ** The request chain and the request-shape score *)

(** C5, as stated, fails: a missing network family contributes the text
    [undefined] to the chain, not the empty string. *)
Lemma missing_family_reads_undefined :
  request_chain Sample.env Sample.generator request_without_family
  = js "1.1" ++ defaultDelimit ++ js "gzip, deflate" ++ defaultDelimit
    ++ js "application/json" ++ defaultDelimit ++ js "keep-alive" ++ defaultDelimit
    ++ js "undefined" ++ defaultDelimit ++ js "443" ++ defaultDelimit
  /\ request_chain Sample.env Sample.generator request_without_family
     <> chain_missing_as_empty Sample.env Sample.generator request_without_family.
Proof. split; [vm_compute; reflexivity|]. vm_compute. discriminate. Qed.

Lemma header_field_take (n : nat) (f : option jsstring) :
  header_field n f = take n (text_or_empty f).
Proof.
  destruct f as [[|c s]|]; unfold header_field, text_or_empty, blank; cbn;
    rewrite ?take_nil; reflexivity.
Qed.

(** C5, amended. The chain built during scoring is, in this order, the
    protocol version cut to 5 characters, accept-encoding cut to 32,
    content-type cut to 32, connection cut to 16, then the network family and
    the network port as texts, uncut, each followed by the configured
    delimiter. A missing or empty header field contributes the empty string;
    the family and the port contribute their text as the runtime converts
    them. When the library reports the edit distance between the ideal chain
    and this chain, the requestData signal handed to the network is that
    distance divided by the length of the chain. *)
Theorem request_shape_score (env : Env) (g : TokenGenerator) (rnd : Entropy)
    (request : Request) (w : World) :
  let chain :=
    take 5 (text_or_empty (httpVersion request)) ++ delimit g
    ++ take 32 (text_or_empty (acceptEncoding request)) ++ delimit g
    ++ take 32 (text_or_empty (contentType request)) ++ delimit g
    ++ take 16 (text_or_empty (connection request)) ++ delimit g
    ++ to_string (Number_toString env) (remoteFamily request) ++ delimit g
    ++ to_string (Number_toString env) (remotePort request) ++ delimit g in
  let distance := levenshtein (idealRequestChain g) chain in
  levenshtein_getAsync env (idealRequestChain g) chain = LevOk (N.of_nat distance) ->
  request_chain env g request = chain
  /\ exists data w',
       calculate env g rnd request w
       = (Done (brain_train_run env (net_seed rnd) (trainingData g) data), w')
       /\ last (trace w') = Some (NetRun data)
       /\ Features.requestData data
          = (Number_of_N (N.of_nat distance) / Number_of_N (N.of_nat (length chain)))%float.
Proof.
  intros chain distance Hlib.
  assert (Hchain : request_chain env g request = chain).
  { unfold request_chain, chain. rewrite !header_field_take. reflexivity. }
  split; [exact Hchain|].
  rewrite calculate_run. cbn zeta. rewrite Hchain, Hlib.
  eexists. eexists. split; [reflexivity|]. cbn [trace].
  split; [apply last_snoc|reflexivity].
Qed.

(** C5, amended, on the request of the module's test: it builds the ideal
    chain itself, at distance 0. *)
Lemma request_shape_score_witness :
  request_chain Sample.env Sample.generator Sample.request = defaultIdealRequestChain
  /\ exists data w',
       calculate Sample.env Sample.generator Sample.entropy Sample.request Sample.world
       = (Done (Sample.nearest 0 Sample.trainingData data), w')
       /\ last (trace w') = Some (NetRun data)
       /\ Features.requestData data
          = (Number_of_N (N.of_nat (levenshtein defaultIdealRequestChain
                                      defaultIdealRequestChain))
             / Number_of_N 55)%float.
Proof.
  refine (request_shape_score Sample.env Sample.generator Sample.entropy
            Sample.request Sample.world _).
  cbn [levenshtein_getAsync Sample.env]. rewrite distance_spec. reflexivity.
Defined.

(** ** Creating a token *)

(** A successful [create], step by step: the identifier is the digest of
    [resourceId + pepper + ip + uuid], the two properties are set on the
    working object, and the token is signed from the identifier and the
    content of that object. *)
Lemma create_run (env : Env) (g : TokenGenerator) (rnd : Entropy) (request : Request)
    (resourceId : prim) (properties : jsarg) (version : prim) (w : World)
    (ip : jsstring) (score : float) :
  remoteAddress request = Some ip ->
  fst (calculate env g rnd request w) = Done score ->
  let p := working_properties w properties in
  let h0 := working_heap w properties in
  let id := Sha256.sha256_hex (identifier_text env resourceId ip (uuid_v4 rnd)) in
  let payload :=
    match p with
    | ArgObj l => DObj (stamped (object_at h0 l) version score)
    | ArgPrim q => DPrim q
    end in
  let claims := {| claims_identifier := id; claims_properties := payload |} in
  fst (create env g rnd request resourceId properties version w)
  = Done (jwt_sign env claims (jwtConfig g), id)
  /\ heap (snd (create env g rnd request resourceId properties version w))
     = match p with
       | ArgObj l => <[l := stamped (object_at h0 l) version score]> h0
       | ArgPrim _ => h0
       end.
Proof.
  intros Hip Hscore. cbv zeta.
  unfold create, createToken, working_properties, working_heap, bind.
  destruct (arg_to_boolean properties) eqn:Htruthy; cbn [negb ret].
  - rewrite calculate_run in *. cbn zeta in *.
    destruct (levenshtein_getAsync env _ _); cbn [fst] in Hscore; [discriminate|].
    injection Hscore as Hscore. rewrite Hscore, Hip. unfold_m. cbn.
    destruct properties as [q|l]; cbn.
    + cbn in Htruthy. rewrite Htruthy. cbn. split; reflexivity.
    + unfold stamped, object_at. simplify_stores. split; reflexivity.
  - unfold new_object. cbn.
    rewrite (calculate_outcome_any_world env g rnd request w
               {| heap := <[fresh (dom (heap w)):=∅]> (heap w); trace := trace w |})
      in Hscore.
    rewrite calculate_run in *. cbn zeta in *.
    destruct (levenshtein_getAsync env _ _); cbn [fst] in Hscore; [discriminate|].
    injection Hscore as Hscore. rewrite Hscore, Hip. unfold_m. cbn.
    unfold stamped, object_at. simplify_stores. split; reflexivity.
Qed.

(** A [create] that ends in its success continuation had a remote address
    and a score. *)
Lemma create_done_inv (env : Env) (g : TokenGenerator) (rnd : Entropy) (request : Request)
    (resourceId : prim) (properties : jsarg) (version : prim) (w : World)
    (result : Token * jsstring) :
  fst (create env g rnd request resourceId properties version w) = Done result ->
  exists ip score,
    remoteAddress request = Some ip
    /\ fst (calculate env g rnd request w) = Done score.
Proof.
  unfold create, bind. intros Hdone.
  destruct (negb (arg_to_boolean properties)).
  - destruct (new_object w) as [l w0]. cbn [ret] in Hdone.
    rewrite (calculate_outcome_any_world env g rnd request w w0).
    destruct (calculate env g rnd request w0) as [[score|e|] w1]; cbn in Hdone;
      try discriminate.
    destruct (remoteAddress request) as [ip|]; cbn in Hdone; [|discriminate].
    exists ip, score. split; reflexivity.
  - cbn [ret] in Hdone.
    destruct (calculate env g rnd request w) as [[score|e|] w1]; cbn in Hdone;
      try discriminate.
    destruct (remoteAddress request) as [ip|]; cbn in Hdone; [|discriminate].
    exists ip, score. split; reflexivity.
Qed.

(** ** The identifier *)

Lemma hex_digit_is_hex (d : N) : d < 16 -> Sha256.is_hex (Sha256.hex_digit d) = true.
Proof.
  intros Hd. unfold Sha256.hex_digit, Sha256.is_hex.
  destruct (N.ltb_spec d 10).
  - apply orb_true_iff. left. apply andb_true_iff. split; apply N.leb_le; lia.
  - apply orb_true_iff. right. apply andb_true_iff. split; apply N.leb_le; lia.
Qed.

Lemma hex_word_shape (x : N) :
  length (Sha256.hex_word x) = 8%nat /\ is_hex_string (Sha256.hex_word x).
Proof.
  split; [reflexivity|].
  unfold is_hex_string, Sha256.hex_word. apply Forall_forall. intros c Hc.
  apply list_elem_of_In, in_map_iff in Hc. destruct Hc as (i & <- & _).
  apply hex_digit_is_hex.
  change 0xf with (N.ones 4). rewrite N.land_ones.
  apply N.mod_lt. discriminate.
Qed.

(** A digest is 64 lower-case hexadecimal digits. *)
Lemma sha256_hex_shape (s : jsstring) :
  length (Sha256.sha256_hex s) = 64%nat /\ is_hex_string (Sha256.sha256_hex s).
Proof.
  unfold Sha256.sha256_hex, Sha256.hex_state.
  generalize (Sha256.digest (Sha256.utf8 s)). intros st.
  split.
  - rewrite !length_app. rewrite !(proj1 (hex_word_shape _)). reflexivity.
  - unfold is_hex_string. rewrite !Forall_app.
    repeat split; apply hex_word_shape.
Qed.





(** While the product stays below [2 ^ 53] it is exact: the address of the
    module's test. *)
Example pepper_of_localhost :
  whole_value (pepper_of (js "127.0.0.1")) = Some 1480746871296000
  /\ exact_product (js "127.0.0.1") = 1480746871296000.
Proof. split; vm_compute; reflexivity. Qed.

(** With a pepper wrapped to 32 bits the hashed text, and the digest, of the
    resource id and the address of the module's test would be other ones. *)
Example wrapped_pepper_gives_another_identifier :
  wraparound_product 32 (js "127.0.0.1") = 1061425152
  /\ identifier_text Sample.env (PStr (js "testResourceId")) (js "127.0.0.1")
       (uuid_v4 Sample.entropy)
     = js "testResourceId1480746871296000127.0.0.1110ec58a-a0f2-4ac4-8393-c866d813b8d1"
  /\ Sha256.sha256_hex
       (js "testResourceId1480746871296000127.0.0.1110ec58a-a0f2-4ac4-8393-c866d813b8d1")
     <> Sha256.sha256_hex
          (js "testResourceId1061425152127.0.0.1110ec58a-a0f2-4ac4-8393-c866d813b8d1").
Proof.
  split; [vm_compute; reflexivity|]. split; [vm_compute; reflexivity|].
  vm_compute. discriminate.
Qed.



(** ** The caller's properties *)

Lemma stamped_lookup (o : gmap string prim) (version : prim) (score : float) :
  stamped o version score !! "version" = Some version
  /\ stamped o version score !! "integrity" = Some (PNum score)
  /\ forall k, k <> "version"%string -> k <> "integrity"%string ->
       stamped o version score !! k = o !! k.
Proof.
  unfold stamped. split; [|split].
  - rewrite lookup_insert_ne by discriminate. apply lookup_insert_eq.
  - apply lookup_insert_eq.
  - intros k Hv Hi. rewrite !lookup_insert_ne by congruence. reflexivity.
Qed.

(** C10. A successful [create] that is given an object [P] of the store writes
    on that very object: afterwards it carries [version] and the computed score
    as [integrity], whatever these two keys held, its other properties are as
    they were, no object is added to the store, and the token is signed from
    the content of [P]. A new empty object is used, and nothing of the
    caller's is written, only when the argument is falsy. *)
Theorem create_writes_on_properties (env : Env) (g : TokenGenerator) (rnd : Entropy)
    (request : Request) (resourceId : prim) (properties : jsarg) (version : prim)
    (w : World) (token : Token) (id : jsstring) :
  fst (create env g rnd request resourceId properties version w) = Done (token, id) ->
  let w' := snd (create env g rnd request resourceId properties version w) in
  exists score,
    fst (calculate env g rnd request w) = Done score
    /\ (forall l P, properties = ArgObj l -> heap w !! l = Some P ->
          heap w' = <[l := stamped P version score]> (heap w)
          /\ dom (heap w') = dom (heap w)
          /\ object_at (heap w') l !! "version" = Some version
          /\ object_at (heap w') l !! "integrity" = Some (PNum score)
          /\ (forall k, k <> "version"%string -> k <> "integrity"%string ->
                object_at (heap w') l !! k = P !! k)
          /\ token = jwt_sign env {| claims_identifier := id;
                                     claims_properties := DObj (object_at (heap w') l) |}
                       (jwtConfig g))
    /\ (arg_to_boolean properties = false ->
          let l := fresh (dom (heap w)) in
          heap w !! l = None
          /\ heap w' = <[l := stamped ∅ version score]> (heap w)
          /\ token = jwt_sign env {| claims_identifier := id;
                                     claims_properties := DObj (stamped ∅ version score) |}
                       (jwtConfig g))
    /\ (forall q, properties = ArgPrim q -> to_boolean q = true -> heap w' = heap w).
Proof.
  intros Hdone w'.
  destruct (create_done_inv _ _ _ _ _ _ _ _ _ Hdone) as (ip & score & Hip & Hscore).
  destruct (create_run env g rnd request resourceId properties version w ip score
              Hip Hscore) as [Hrun Hheap].
  cbv zeta in Hrun, Hheap. rewrite Hrun in Hdone. injection Hdone as <- <-.
  fold w' in Hheap. unfold working_properties, working_heap in *.
  exists score. split; [exact Hscore|]. split; [|split].
  - intros l P -> Hl. cbn [arg_to_boolean] in *.
    unfold object_at at 1 in Hheap. rewrite Hl in Hheap. cbn [default] in Hheap.
    assert (Hobj : object_at (heap w') l = stamped P version score).
    { unfold object_at. rewrite Hheap, lookup_insert_eq. reflexivity. }
    rewrite Hobj. destruct (stamped_lookup P version score) as (Hv & Hi & Hk).
    split; [exact Hheap|]. split.
    { rewrite Hheap. apply set_eq. intros l'. rewrite dom_insert, elem_of_union,
        elem_of_singleton. split; [|tauto]. intros [->|H]; [|exact H].
      apply elem_of_dom. eauto. }
    split; [exact Hv|]. split; [exact Hi|]. split; [exact Hk|].
    unfold object_at. rewrite Hl. reflexivity.
  - intros Hfalsy. cbv zeta. rewrite Hfalsy in *.
    split; [apply not_elem_of_dom, is_fresh|].
    unfold object_at in Hheap. rewrite lookup_insert_eq in Hheap. cbn [default] in Hheap.
    rewrite insert_insert_eq in Hheap. split; [exact Hheap|].
    unfold object_at. rewrite lookup_insert_eq. reflexivity.
  - intros q -> Hq. cbn [arg_to_boolean] in Hheap. rewrite Hq in Hheap. exact Hheap.
Qed.

(** C10, on the request of the module's test and the caller's object. *)
Lemma create_writes_on_properties_witness :
  exists token id,
    fst (create Sample.env Sample.generator Sample.entropy Sample.request
           (PStr (js "testResourceId")) (ArgObj 1) (PStr (js "1.0")) caller_world)
    = Done (token, id)
    /\ heap (snd (create Sample.env Sample.generator Sample.entropy Sample.request
                    (PStr (js "testResourceId")) (ArgObj 1) (PStr (js "1.0")) caller_world))
       = <[1%positive := stamped caller_properties (PStr (js "1.0")) 1%float]>
           (heap caller_world).
Proof.
  eexists. eexists. split; [vm_compute; reflexivity|].
  destruct (create_writes_on_properties Sample.env Sample.generator Sample.entropy
              Sample.request (PStr (js "testResourceId")) (ArgObj 1) (PStr (js "1.0"))
              caller_world _ _ eq_refl) as (score & Hscore & Hobj & _).
  assert (Hone : fst (calculate Sample.env Sample.generator Sample.entropy
                        Sample.request caller_world) = Done 1%float)
    by (vm_compute; reflexivity).
  rewrite Hone in Hscore. injection Hscore as <-.
  exact (proj1 (Hobj 1%positive caller_properties eq_refl eq_refl)).
Defined.

(** ** Creating, then decoding *)

(** The properties a caller passes hold an [integrity] of their own; the
    decoded properties hold the score under that key, so they are no superset
    of what was passed (C1). *)
Lemma round_trip_overwrites_integrity :
  let created := create Sample.env Sample.generator Sample.entropy Sample.request
                   (PStr (js "testResourceId")) (ArgObj 1) (PStr (js "1.0")) caller_world in
  properties_of (heap caller_world) (ArgObj 1) = Some caller_properties
  /\ exists token id decoded props,
       fst created = Done (token, id)
       /\ fst (decode Sample.env Sample.generator token (snd created)) = Done decoded
       /\ properties decoded = DObj props
       /\ caller_properties !! "integrity" = Some (PStr (js "high"))
       /\ props !! "integrity" = Some (PNum 1%float)
       /\ ~ caller_properties ⊆ props.
Proof.
  cbv zeta. split; [reflexivity|].
  eexists. eexists. eexists. eexists.
  split; [vm_compute; reflexivity|].
  split; [vm_compute; reflexivity|].
  split; [reflexivity|].
  split; [reflexivity|].
  split; [vm_compute; reflexivity|].
  intros Hsub. rewrite map_subseteq_spec in Hsub.
  specialize (Hsub "integrity"%string (PStr (js "high")) eq_refl).
  vm_compute in Hsub. discriminate.
Qed.

(** A token whose claims the codec carries decodes to them, when the
    identifier is not empty. *)
Lemma decode_carried (env : Env) (g : TokenGenerator) (claims : Claims) (w : World) :
  codec_carries env claims (jwtConfig g) ->
  claims_identifier claims <> [] ->
  exists decoded,
    fst (decode env g (jwt_sign env claims (jwtConfig g)) w) = Done decoded
    /\ identifier decoded = DPrim (PStr (claims_identifier claims))
    /\ properties decoded = json_data (claims_properties claims).
Proof.
  intros (decoded & Hverify & Hid & Hprops) Hne. exists decoded.
  split; [|split; assumption].
  unfold decode, decode_callback, bind, emit, ret. cbn [fst].
  rewrite Hverify, Hid. cbn [data_to_boolean to_boolean].
  destruct (claims_identifier claims); [congruence|reflexivity].
Qed.

(** A digest is not the empty string. *)
Lemma sha256_hex_not_empty (s : jsstring) : Sha256.sha256_hex s <> [].
Proof.
  intros Heq. destruct (sha256_hex_shape s) as [Hlen _]. rewrite Heq in Hlen.
  discriminate Hlen.
Qed.

(** What JSON gives back for a Number that is finite and not zero. *)
Lemma json_prim_number (x : float) :
  is_finite_number x = true -> PrimFloat.is_zero x = false ->
  json_prim (PNum x) = Some (PNum x).
Proof. intros Hf Hz. unfold json_prim. rewrite Hf, Hz. reflexivity. Qed.

(** X17. [create] for a properties map [P] (an object of the store, or
    none), in a request with a remote address for which [calculate] gives a
    score, ends in its success continuation with the token signed for the
    identifier, the SHA-256 digest of [resourceId + pepper + ip + uuid] in 64
    hexadecimal digits, and for [P] with [version] and [integrity] set. When
    the codec verifies that token and carries its payload as JSON does,
    [decode] ends in its success continuation with that identifier and with
    properties that hold: under [version], the version (as JSON carries it: a
    string as it is); under [integrity], the score [calculate] computed for
    the request ([null] when it is not finite); and under every other key
    what [P] holds there, as JSON carries it. *)
Theorem created_token_decodes (env : Env) (g : TokenGenerator) (rnd : Entropy)
    (request : Request) (resourceId : prim) (supplied : jsarg) (version : prim)
    (w : World) (P : gmap string prim) (ip : jsstring) (score : float) :
  properties_of (heap w) supplied = Some P ->
  remoteAddress request = Some ip ->
  fst (calculate env g rnd request w) = Done score ->
  let id := Sha256.sha256_hex (identifier_text env resourceId ip (uuid_v4 rnd)) in
  let claims := {| claims_identifier := id;
                   claims_properties := DObj (stamped P version score) |} in
  let token := jwt_sign env claims (jwtConfig g) in
  let created := create env g rnd request resourceId supplied version w in
  codec_carries env claims (jwtConfig g) ->
  fst created = Done (token, id)
  /\ length id = 64%nat /\ is_hex_string id
  /\ exists decoded props,
       fst (decode env g token (snd created)) = Done decoded
       /\ identifier decoded = DPrim (PStr id)
       /\ properties decoded = DObj props
       /\ props !! "version" = json_prim version
       /\ (forall s, version = PStr s -> props !! "version" = Some (PStr s))
       /\ props !! "integrity" = json_prim (PNum score)
       /\ (is_finite_number score = true -> PrimFloat.is_zero score = false ->
           props !! "integrity" = Some (PNum score))
       /\ (is_finite_number score = false -> props !! "integrity" = Some PNull)
       /\ (forall k, k <> "version"%string -> k <> "integrity"%string ->
             props !! k = P !! k ≫= json_prim).
Proof.
  intros HP Hip Hscore id claims token created Hcodec.
  destruct (create_run env g rnd request resourceId supplied version w ip score
              Hip Hscore) as [Hrun _].
  cbv zeta in Hrun. fold id in Hrun.
  assert (Hpayload :
            match working_properties w supplied with
            | ArgObj l => DObj (stamped (object_at (working_heap w supplied) l) version score)
            | ArgPrim q => DPrim q
            end = DObj (stamped P version score)).
  { unfold working_properties, working_heap, properties_of, object_at in *.
    destruct supplied as [q|l]; cbn [arg_to_boolean] in *.
    - destruct (to_boolean q); [discriminate|]. injection HP as <-.
      rewrite lookup_insert_eq. reflexivity.
    - rewrite HP. reflexivity. }
  rewrite Hpayload in Hrun. fold claims in Hrun. fold token in Hrun.
  destruct (sha256_hex_shape (identifier_text env resourceId ip (uuid_v4 rnd)))
    as [Hlen Hhex]. fold id in Hlen, Hhex.
  split; [exact Hrun|]. split; [exact Hlen|]. split; [exact Hhex|].
  destruct (decode_carried env g claims (snd created) Hcodec) as (decoded & Hd & Hid & Hprops).
  { apply sha256_hex_not_empty. }
  cbn [claims claims_identifier claims_properties json_data] in Hid, Hprops.
  exists decoded, (omap json_prim (stamped P version score)).
  destruct (stamped_lookup P version score) as (Hv & Hi & Hk).
  assert (Hversion : omap json_prim (stamped P version score) !! "version"
                     = json_prim version)
    by (rewrite lookup_omap, Hv; reflexivity).
  assert (Hintegrity : omap json_prim (stamped P version score) !! "integrity"
                       = json_prim (PNum score))
    by (rewrite lookup_omap, Hi; reflexivity).
  split; [exact Hd|]. split; [exact Hid|]. split; [exact Hprops|].
  split; [exact Hversion|].
  split; [intros s ->; exact Hversion|].
  split; [exact Hintegrity|].
  split; [intros Hf Hz; rewrite Hintegrity; apply json_prim_number; assumption|].
  split; [intros Hf; rewrite Hintegrity; unfold json_prim; rewrite Hf; reflexivity|].
  intros k Hkv Hki. rewrite lookup_omap, Hk by assumption. reflexivity.
Qed.

(** X17, on the request of the module's test and the caller's object: the
    caller's [name] comes back, its [integrity] comes back as the score. *)
Lemma created_token_decodes_witness :
  let created := create Sample.env Sample.generator Sample.entropy Sample.request
                   (PStr (js "testResourceId")) (ArgObj 1) (PStr (js "1.0")) caller_world in
  exists token decoded props,
    fst created
    = Done (token, js "f82569d6ef1d3b3a16a0299b4a7759ad65506c6a04c5791fcf3cac632138f19a")
    /\ fst (decode Sample.env Sample.generator token (snd created)) = Done decoded
    /\ properties decoded = DObj props
    /\ props !! "version" = Some (PStr (js "1.0"))
    /\ props !! "integrity" = Some (PNum 1%float)
    /\ props !! "name" = Some (PStr (js "janus")).
Proof.
  cbv zeta.
  assert (Hid : Sha256.sha256_hex
                  (identifier_text Sample.env (PStr (js "testResourceId"))
                     (js "127.0.0.1") (uuid_v4 Sample.entropy))
                = js "f82569d6ef1d3b3a16a0299b4a7759ad65506c6a04c5791fcf3cac632138f19a")
    by (vm_compute; reflexivity).
  destruct (created_token_decodes Sample.env Sample.generator Sample.entropy Sample.request
              (PStr (js "testResourceId")) (ArgObj 1) (PStr (js "1.0")) caller_world
              caller_properties (js "127.0.0.1") 1%float eq_refl eq_refl)
    as (Hdone & _ & _ & decoded & props & Hdecode & _ & Hprops & _ & Hv & _ & Hi & _ & Hk).
  - vm_compute. reflexivity.
  - eexists. split; [vm_compute; reflexivity|]. split; vm_compute; reflexivity.
  - rewrite Hid in Hdone. eexists. exists decoded, props.
    split; [exact Hdone|]. split; [exact Hdecode|]. split; [exact Hprops|].
    split; [apply Hv; reflexivity|].
    split; [apply Hi; vm_compute; reflexivity|].
    rewrite Hk by discriminate. reflexivity.
Defined.

(** ** The training store, by value *)

Lemma submitted_length (ops : list Op) : length (submitted ops) = train_calls ops.
Proof.
  unfold train_calls. induction ops as [|op ops IH]; [reflexivity|].
  destruct op; cbn; rewrite IH; reflexivity.
Qed.

(** Two [train] calls around a [calculate], on the generator of the module's
    test: the two submitted examples follow the two of the constructor. *)
Example two_train_calls :
  trainingData
    (fst (run Sample.env
            [OpTrain 1 1 1 0x1p-1 0x1p-1;
             OpCalculate Sample.entropy Sample.request;
             OpTrain 0 1 0 1 0x1p-3]
            (Sample.generator, Sample.world)))
  = Sample.trainingData
    ++ [ {| input := Features.Build 1 1 1 0x1p-1; output_integrity := 0x1p-1%float |};
         {| input := Features.Build 0 1 0 1; output_integrity := 0x1p-3%float |} ].
Proof. reflexivity. Qed.

(** ** The signals for a plainly called callback *)

Lemma plain_user_agent_signal (agent : jsstring) :
  is_blank agent = false ->
  userAgentTest (Some agent) None None
  = (Number_of_N (1 + punctuation_checks agent) / 6)%float.
Proof.
  intros Hblank. unfold userAgentTest, punctuation_checks. rewrite Hblank.
  cbn [search]. 
  destruct (contains 46 agent), (contains 40 agent), (contains 41 agent),
    (contains 47 agent); vm_compute; reflexivity.
Qed.

(** There are four punctuation sub-tests. *)
Lemma punctuation_checks_le (agent : jsstring) : punctuation_checks agent <= 4.
Proof.
  unfold punctuation_checks.
  destruct (contains 46 agent), (contains 40 agent), (contains 41 agent),
    (contains 47 agent); vm_compute; discriminate.
Qed.

(** X2. When the distance library calls its callback plainly, so that [this]
    there is the global object, and reports a distance, [calculate] runs the
    network on signals in which no configured pattern plays a part. The
    patterns the callback reads are [undefined], and [search(undefined)] finds
    the empty pattern at index 0 of every string. So for a user-agent that is
    not blank the bot sub-test (no bot word is found) never counts and the
    browser sub-test (a browser word is found) always counts: the userAgent
    signal is one plus the number of punctuation marks found among period,
    parentheses and slash, over six. And for an accept-language that is not
    blank the language sub-test always counts: the language signal is 1
    whatever the header says. *)
Theorem plain_callback_signals (env : Env) (g : TokenGenerator) (rnd : Entropy)
    (request : Request) (distance : N) (w : World) :
  callback_this env = globalObject ->
  levenshtein_getAsync env (idealRequestChain g) (request_chain env g request)
  = LevOk distance ->
  exists data w',
    calculate env g rnd request w
    = (Done (brain_train_run env (net_seed rnd) (trainingData g) data), w')
    /\ last (trace w') = Some (NetRun data)
    /\ (forall agent, userAgent request = Some agent -> is_blank agent = false ->
          let bot := this_botMatch (callback_this env) in
          let browser := this_browserMatch (callback_this env) in
          search agent bot = 0%Z
          /\ search agent browser = 0%Z
          /\ bit (search agent bot =? -1)%Z = 0%float
          /\ bit (negb (search agent browser =? -1)%Z) = 1%float
          /\ Features.userAgent data = userAgentTest (Some agent) bot browser
          /\ Features.userAgent data
             = (Number_of_N (1 + punctuation_checks agent) / 6)%float
          /\ punctuation_checks agent <= 4)
    /\ (forall language, acceptLanguage request = Some language ->
          is_blank language = false ->
          search language (this_languageMatch (callback_this env)) = 0%Z
          /\ Features.language data = 1%float).
Proof.
  intros Hthis Hlib. rewrite calculate_run. cbn zeta. rewrite Hlib, Hthis.
  eexists. eexists. split; [reflexivity|]. cbn [trace].
  split; [apply last_snoc|]. split.
  - intros agent Hagent Hblank. unfold request_features. cbn [Features.userAgent].
    rewrite Hagent. cbn [this_botMatch this_browserMatch globalObject search].
    repeat (split; [reflexivity|]).
    split; [apply plain_user_agent_signal; exact Hblank|apply punctuation_checks_le].
  - intros language Hlanguage Hblank. unfold request_features. cbn [Features.language].
    rewrite Hlanguage. cbn [this_languageMatch globalObject search].
    split; [reflexivity|].
    unfold evaluateLanguage. rewrite Hblank. reflexivity.
Qed.

(** X2, on the request of the module's test: the user-agent holds a browser
    word and no bot word, and all four punctuation marks, yet its signal is
    five sixths, the bot sub-test being lost. *)
Lemma plain_callback_signals_witness :
  exists data w',
    calculate Sample.env Sample.generator Sample.entropy Sample.request Sample.world
    = (Done (Sample.nearest 0 Sample.trainingData data), w')
    /\ last (trace w') = Some (NetRun data)
    /\ (forall agent, userAgent Sample.request = Some agent -> is_blank agent = false ->
          search agent (this_botMatch (callback_this Sample.env)) = 0%Z
          /\ search agent (this_browserMatch (callback_this Sample.env)) = 0%Z
          /\ bit (search agent (this_botMatch (callback_this Sample.env)) =? -1)%Z
             = 0%float
          /\ bit (negb (search agent (this_browserMatch (callback_this Sample.env))
                        =? -1)%Z) = 1%float
          /\ Features.userAgent data
             = userAgentTest (Some agent) (this_botMatch (callback_this Sample.env))
                 (this_browserMatch (callback_this Sample.env))
          /\ Features.userAgent data
             = (Number_of_N (1 + punctuation_checks agent) / 6)%float
          /\ punctuation_checks agent <= 4)
    /\ (forall language, acceptLanguage Sample.request = Some language ->
          is_blank language = false ->
          search language (this_languageMatch (callback_this Sample.env)) = 0%Z
          /\ Features.language data = 1%float).
Proof.
  refine (plain_callback_signals Sample.env Sample.generator Sample.entropy Sample.request
            (N.of_nat (levenshtein (idealRequestChain Sample.generator)
                         (request_chain Sample.env Sample.generator Sample.request)))
            Sample.world eq_refl _).
  cbn [levenshtein_getAsync Sample.env]. rewrite distance_spec. reflexivity.
Defined.

(** ** The constructor and the chain *)

Lemma string_or_nonempty (s : option jsstring) (fallback : jsstring) :
  fallback <> [] -> string_or s fallback <> [].
Proof. intros Hf. destruct s as [[|c s]|]; cbn; congruence. Qed.

(** A header field is cut to its bound. *)
Lemma header_field_length (n : nat) (f : option jsstring) :
  (length (header_field n f) <= n)%nat.
Proof. rewrite header_field_take, length_take. lia. Qed.

(** The chain holds six delimiters. *)
Lemma request_chain_lower (env : Env) (g : TokenGenerator) (request : Request) :
  (6 * length (delimit g) <= length (request_chain env g request))%nat.
Proof. unfold request_chain. rewrite !length_app. lia. Qed.

(** X5. The chain [calculate] compares with the ideal chain holds six
    delimiters and ends with one; the four header fields give at most 85 code
    units of it, the family and the port are not cut; and the user-agent, the
    accept-language, the referer and the remote address play no part in it. *)
Theorem request_chain_length (env : Env) (g : TokenGenerator) (request : Request) :
  let chain := request_chain env g request in
  let family := to_string (Number_toString env) (remoteFamily request) in
  let port := to_string (Number_toString env) (remotePort request) in
  (6 * length (delimit g) <= length chain)%nat
  /\ (length chain <= 85 + length family + length port + 6 * length (delimit g))%nat
  /\ (exists before, chain = before ++ delimit g)
  /\ (forall userAgent' acceptLanguage' referer' remoteAddress',
        request_chain env g
          {| httpVersion := httpVersion request;
             acceptEncoding := acceptEncoding request;
             contentType := contentType request;
             connection := connection request;
             remoteFamily := remoteFamily request;
             remotePort := remotePort request;
             userAgent := userAgent';
             acceptLanguage := acceptLanguage';
             referer := referer';
             remoteAddress := remoteAddress' |} = chain).
Proof.
  cbv zeta. unfold request_chain. cbn [httpVersion acceptEncoding contentType connection
    remoteFamily remotePort].
  pose proof (header_field_length 5 (httpVersion request)).
  pose proof (header_field_length 32 (acceptEncoding request)).
  pose proof (header_field_length 32 (contentType request)).
  pose proof (header_field_length 16 (connection request)).
  split; [rewrite !length_app; lia|]. split; [rewrite !length_app; lia|].
  split; [|reflexivity].
  eexists. rewrite !app_assoc. reflexivity.
Qed.

(** X7. A generator the constructor built has a delimiter, an ideal chain
    and an algorithm that are not empty, whatever was passed (an empty string
    is replaced by the default as a missing argument is); hence the chain of
    every request has at least six code units and [calculate] never divides
    by a zero length. *)
Theorem constructed_generator_is_well_formed (g : TokenGenerator) :
  constructed g ->
  delimit g <> [] /\ idealRequestChain g <> [] /\ algorithm (jwtConfig g) <> []
  /\ forall env request, (6 <= length (request_chain env g request))%nat.
Proof.
  intros (td & sec & iss & aud & alg & d & bot & brw & lang & ideal & ->).
  set (g := new_TokenGenerator td sec iss aud alg d bot brw lang ideal).
  assert (Hd : delimit g <> []) by (apply string_or_nonempty; discriminate).
  split; [exact Hd|].
  split; [apply string_or_nonempty; discriminate|].
  split; [apply string_or_nonempty; discriminate|].
  intros env request.
  pose proof (request_chain_lower env g request) as Hlen.
  destruct (delimit g); [congruence|]. cbn [length] in Hlen. lia.
Qed.

Lemma constructed_generator_is_well_formed_witness :
  delimit Sample.generator <> [] /\ idealRequestChain Sample.generator <> []
  /\ algorithm (jwtConfig Sample.generator) <> []
  /\ forall env request, (6 <= length (request_chain env Sample.generator request))%nat.
Proof.
  apply constructed_generator_is_well_formed.
  unfold constructed, Sample.generator. repeat eexists.
Defined.

(** ** The remote address plays no part in the score *)

(** X8. The remote address of the request plays no part in scoring:
    [calculate] and [compare] do the same, in result and in effects, whatever
    the address, even a missing one. *)
Theorem score_ignores_remote_address (env : Env) (g : TokenGenerator) (rnd : Entropy)
    (request : Request) (address : option jsstring) (w : World) :
  calculate env g rnd (with_remoteAddress request address) w = calculate env g rnd request w
  /\ forall integrity,
       compare env g rnd integrity (with_remoteAddress request address) w
       = compare env g rnd integrity request w.
Proof.
  assert (Hcalc : forall w0, calculate env g rnd (with_remoteAddress request address) w0
                             = calculate env g rnd request w0).
  { intros w0. rewrite !calculate_run. reflexivity. }
  split; [apply Hcalc|].
  intros integrity. unfold compare, bind. rewrite Hcalc. reflexivity.
Qed.

(** ** A request without a remote address *)

(** X9. For a request without a remote address whose distance is reported,
    [create] ends in neither continuation: the scoring is done, network run
    included, and then reading the length of the address throws inside the
    callback. Nothing is hashed or signed, and the objects of the store are
    kept. *)
Theorem create_without_address_throws (env : Env) (g : TokenGenerator) (rnd : Entropy)
    (request : Request) (resourceId : prim) (properties : jsarg) (version : prim)
    (distance : N) (w : World) :
  remoteAddress request = None ->
  levenshtein_getAsync env (idealRequestChain g) (request_chain env g request)
  = LevOk distance ->
  let created := create env g rnd request resourceId properties version w in
  let data := request_features env (callback_this env) request
                (request_chain env g request) distance in
  fst created = Thrown
  /\ trace (snd created)
     = trace w ++ [NetTrain (trainingData g);
                   LevenshteinGet (idealRequestChain g) (request_chain env g request);
                   NetRun data]
  /\ forall l o, heap w !! l = Some o -> heap (snd created) !! l = Some o.
Proof.
  intros Hip Hlib. cbv zeta.
  assert (Hcalc : forall w0, calculate env g rnd request w0
            = (Done (brain_train_run env (net_seed rnd) (trainingData g)
                       (request_features env (callback_this env) request
                          (request_chain env g request) distance)),
               {| heap := heap w0;
                  trace := trace w0 ++ [NetTrain (trainingData g);
                             LevenshteinGet (idealRequestChain g) (request_chain env g request);
                             NetRun (request_features env (callback_this env) request
                                       (request_chain env g request) distance)] |})).
  { intros w0. rewrite calculate_run. cbn zeta. rewrite Hlib.
    rewrite <- !app_assoc. reflexivity. }
  unfold create, bind.
  destruct (negb (arg_to_boolean properties)).
  - destruct (new_object w) as [l w0] eqn:Hnew. cbn [ret]. rewrite Hcalc, Hip.
    cbn [ret fst snd trace heap].
    assert (Hw0 : w0 = snd (new_object w)) by (rewrite Hnew; reflexivity).
    split; [reflexivity|]. split.
    + rewrite Hw0. reflexivity.
    + intros l' o Hl'. rewrite Hw0. apply new_object_keeps. exact Hl'.
  - cbn [ret]. rewrite Hcalc, Hip. cbn [ret fst snd trace heap].
    split; [reflexivity|]. split; [reflexivity|]. intros l' o Hl'. exact Hl'.
Qed.

Lemma create_without_address_throws_witness :
  fst (create Sample.env Sample.generator Sample.entropy
         (with_remoteAddress Sample.request None)
         (PStr (js "testResourceId")) (ArgObj 1) (PStr (js "1.0")) caller_world)
  = Thrown
  /\ heap (snd (create Sample.env Sample.generator Sample.entropy
                  (with_remoteAddress Sample.request None)
                  (PStr (js "testResourceId")) (ArgObj 1) (PStr (js "1.0")) caller_world))
     !! 1%positive = Some caller_properties.
Proof.
  destruct (create_without_address_throws Sample.env Sample.generator Sample.entropy
              (with_remoteAddress Sample.request None)
              (PStr (js "testResourceId")) (ArgObj 1) (PStr (js "1.0")) 0 caller_world
              eq_refl) as (Hthrown & _ & Hkeep).
  - vm_compute. reflexivity.
  - split; [exact Hthrown|]. apply Hkeep. reflexivity.
Defined.

(** ** The library calls of a successful [create], and a primitive as properties *)

Lemma create_success_run (env : Env) (g : TokenGenerator) (rnd : Entropy) (request : Request)
    (resourceId : prim) (properties : jsarg) (version : prim) (w : World)
    (ip : jsstring) (distance : N) :
  remoteAddress request = Some ip ->
  levenshtein_getAsync env (idealRequestChain g) (request_chain env g request)
  = LevOk distance ->
  let chain := request_chain env g request in
  let data := request_features env (callback_this env) request chain distance in
  let score := brain_train_run env (net_seed rnd) (trainingData g) data in
  let text := identifier_text env resourceId ip (uuid_v4 rnd) in
  let id := Sha256.sha256_hex text in
  let payload :=
    match working_properties w properties with
    | ArgObj l => DObj (stamped (object_at (working_heap w properties) l) version score)
    | ArgPrim q => DPrim q
    end in
  let claims := {| claims_identifier := id; claims_properties := payload |} in
  fst (create env g rnd request resourceId properties version w)
  = Done (jwt_sign env claims (jwtConfig g), id)
  /\ trace (snd (create env g rnd request resourceId properties version w))
     = trace w ++ [NetTrain (trainingData g); LevenshteinGet (idealRequestChain g) chain;
                   NetRun data; HashUpdate text; JwtSign claims].
Proof.
  intros Hip Hlib. cbv zeta.
  unfold create, createToken, working_properties, working_heap, bind.
  destruct (arg_to_boolean properties) eqn:Htruthy; cbn [negb ret].
  - rewrite calculate_run. cbn zeta. rewrite Hlib, Hip. unfold_m. cbn.
    destruct properties as [q|l]; cbn.
    + cbn in Htruthy. rewrite Htruthy. cbn. rewrite <- !app_assoc. split; reflexivity.
    + unfold stamped, object_at. simplify_stores. rewrite <- !app_assoc.
      split; reflexivity.
  - unfold new_object. cbn. rewrite calculate_run. cbn zeta. rewrite Hlib, Hip.
    unfold_m. cbn. unfold stamped, object_at. simplify_stores. rewrite <- !app_assoc.
    split; reflexivity.
Qed.

(** X10. The library calls of the methods, in order, when the distance is
    reported and the request has a remote address: [create] trains the
    network, asks for the distance, runs the network, hashes one text and
    signs one set of claims, and the identifier it returns is the digest of the
    hashed text; [calculate] and [compare] make the first three calls only;
    [decode] makes one call, the verification of the token. *)
Theorem method_library_calls (env : Env) (g : TokenGenerator) (rnd : Entropy)
    (request : Request) (ip : jsstring) (distance : N) (w : World) :
  remoteAddress request = Some ip ->
  levenshtein_getAsync env (idealRequestChain g) (request_chain env g request)
  = LevOk distance ->
  let chain := request_chain env g request in
  let data := request_features env (callback_this env) request chain distance in
  let scoring := [NetTrain (trainingData g); LevenshteinGet (idealRequestChain g) chain;
                  NetRun data] in
  (forall resourceId properties version,
     exists text claims,
       trace (snd (create env g rnd request resourceId properties version w))
       = trace w ++ scoring ++ [HashUpdate text; JwtSign claims]
       /\ fst (create env g rnd request resourceId properties version w)
          = Done (jwt_sign env claims (jwtConfig g), Sha256.sha256_hex text))
  /\ trace (snd (calculate env g rnd request w)) = trace w ++ scoring
  /\ (forall integrity,
        trace (snd (compare env g rnd integrity request w)) = trace w ++ scoring)
  /\ (forall token, trace (snd (decode env g token w)) = trace w ++ [JwtVerify token]).
Proof.
  intros Hip Hlib. cbv zeta.
  assert (Hcalc : calculate env g rnd request w
            = (Done (brain_train_run env (net_seed rnd) (trainingData g)
                       (request_features env (callback_this env) request
                          (request_chain env g request) distance)),
               {| heap := heap w;
                  trace := trace w ++ [NetTrain (trainingData g);
                             LevenshteinGet (idealRequestChain g) (request_chain env g request);
                             NetRun (request_features env (callback_this env) request
                                       (request_chain env g request) distance)] |})).
  { rewrite calculate_run. cbn zeta. rewrite Hlib. rewrite <- !app_assoc. reflexivity. }
  split; [|split; [|split]].
  - intros resourceId properties version.
    destruct (create_success_run env g rnd request resourceId properties version w ip
                distance Hip Hlib) as [Hdone Htrace].
    cbv zeta in Hdone, Htrace. eexists. eexists. split; [exact Htrace|exact Hdone].
  - rewrite Hcalc. reflexivity.
  - intros integrity. unfold compare, bind. rewrite Hcalc. reflexivity.
  - intros token. reflexivity.
Qed.

Lemma method_library_calls_witness :
  trace (snd (calculate Sample.env Sample.generator Sample.entropy Sample.request
                Sample.world))
  = [NetTrain Sample.trainingData;
     LevenshteinGet defaultIdealRequestChain defaultIdealRequestChain;
     NetRun (request_features Sample.env globalObject Sample.request
               defaultIdealRequestChain 0)].
Proof.
  destruct (method_library_calls Sample.env Sample.generator Sample.entropy Sample.request
              (js "127.0.0.1") 0 Sample.world eq_refl) as (_ & Hcalc & _).
  - vm_compute. reflexivity.
  - rewrite Hcalc. vm_compute. reflexivity.
Defined.

(** X11. [create] called with a truthy primitive for properties (a string,
    as the module's test does, a non-zero number, [true]) signs that primitive
    as the properties of the token: the writes of version and integrity on it
    are lost and the store is left as it was. When the codec verifies that
    token and carries its payload as JSON does, decoding it gives back the
    primitive as JSON carries it (a string as it is, an infinity as [null]),
    with neither a version nor an integrity. *)
Theorem create_with_primitive_properties (env : Env) (g : TokenGenerator) (rnd : Entropy)
    (request : Request) (resourceId : prim) (q : prim) (version : prim)
    (ip : jsstring) (distance : N) (w : World) :
  to_boolean q = true ->
  remoteAddress request = Some ip ->
  levenshtein_getAsync env (idealRequestChain g) (request_chain env g request)
  = LevOk distance ->
  let id := Sha256.sha256_hex (identifier_text env resourceId ip (uuid_v4 rnd)) in
  let claims := {| claims_identifier := id; claims_properties := DPrim q |} in
  let token := jwt_sign env claims (jwtConfig g) in
  let created := create env g rnd request resourceId (ArgPrim q) version w in
  fst created = Done (token, id)
  /\ heap (snd created) = heap w
  /\ (codec_carries env claims (jwtConfig g) ->
      exists decoded,
        fst (decode env g token (snd created)) = Done decoded
        /\ identifier decoded = DPrim (PStr id)
        /\ properties decoded = json_data (DPrim q)
        /\ (forall s, q = PStr s -> properties decoded = DPrim (PStr s))
        /\ (forall x, q = PNum x -> is_finite_number x = false ->
              properties decoded = DPrim PNull)).
Proof.
  intros Hq Hip Hlib id claims token created.
  destruct (create_success_run env g rnd request resourceId (ArgPrim q) version w ip
              distance Hip Hlib) as [Hdone _].
  cbv zeta in Hdone. unfold working_properties in Hdone.
  cbn [arg_to_boolean] in Hdone. rewrite Hq in Hdone.
  fold id in Hdone. fold claims in Hdone. fold token in Hdone. fold created in Hdone.
  split; [exact Hdone|]. split.
  { assert (Hscore : exists score, fst (calculate env g rnd request w) = Done score).
    { rewrite calculate_run. cbn zeta. rewrite Hlib. eexists. reflexivity. }
    destruct Hscore as [score Hscore].
    destruct (create_run env g rnd request resourceId (ArgPrim q) version w ip score
                Hip Hscore) as [_ Hheap].
    cbv zeta in Hheap. unfold working_properties, working_heap in Hheap.
    cbn [arg_to_boolean] in Hheap. rewrite Hq in Hheap. exact Hheap. }
  intros Hcodec.
  destruct (decode_carried env g claims (snd created) Hcodec) as (decoded & Hd & Hid & Hprops).
  { apply sha256_hex_not_empty. }
  cbn [claims claims_identifier claims_properties] in Hid, Hprops.
  exists decoded. split; [exact Hd|]. split; [exact Hid|]. split; [exact Hprops|].
  split.
  - intros s ->. exact Hprops.
  - intros x -> Hx. rewrite Hprops. cbn [json_data json_prim]. rewrite Hx. reflexivity.
Qed.

(** X11, on the call the module's test makes, a string in the place of the
    properties. *)
Lemma create_with_primitive_properties_witness :
  exists token id decoded,
    fst (create Sample.env Sample.generator Sample.entropy Sample.request
           (PStr (js "testResourceId")) (ArgPrim (PStr (js "1.0"))) PUndefined Sample.world)
    = Done (token, id)
    /\ fst (decode Sample.env Sample.generator token
              (snd (create Sample.env Sample.generator Sample.entropy Sample.request
                      (PStr (js "testResourceId")) (ArgPrim (PStr (js "1.0"))) PUndefined
                      Sample.world)))
       = Done decoded
    /\ properties decoded = DPrim (PStr (js "1.0")).
Proof.
  destruct (create_with_primitive_properties Sample.env Sample.generator Sample.entropy
              Sample.request (PStr (js "testResourceId")) (PStr (js "1.0")) PUndefined
              (js "127.0.0.1") 0 Sample.world eq_refl eq_refl)
    as (Hdone & _ & Hdecode).
  - vm_compute. reflexivity.
  - destruct Hdecode as (decoded & Hd & _ & _ & Hs & _).
    + eexists. split; [vm_compute; reflexivity|]. split; vm_compute; reflexivity.
    + eexists. eexists. exists decoded.
      split; [exact Hdone|]. split; [exact Hd|]. apply Hs. reflexivity.
Defined.

(** ** Runs of the generator *)




(** ** The working object of [create] *)

(** Taking a fresh object for missing properties keeps the others. *)
Lemma working_heap_keeps (w : World) (properties : jsarg) (l : positive)
    (o : gmap string prim) :
  heap w !! l = Some o -> working_heap w properties !! l = Some o.
Proof.
  intros Hl. unfold working_heap. destruct (arg_to_boolean properties); [exact Hl|].
  apply (new_object_keeps w l o Hl).
Qed.

(** The fresh location holds no object yet. *)
Lemma fresh_is_new (w : World) (l : positive) (o : gmap string prim) :
  heap w !! l = Some o -> fresh (dom (heap w)) <> l.
Proof.
  intros Hl Heq. pose proof (is_fresh (dom (heap w))) as Hfresh.
  rewrite Heq in Hfresh. apply Hfresh. apply elem_of_dom. eauto.
Qed.

(** ** Comparison of Numbers that are not finite *)

Lemma tolerance_value :
  exists m e, Prim2SF tolerance = S754_finite false m e.
Proof. eexists. eexists. vm_compute. reflexivity. Qed.

(** The comparison [compare] makes, on the values of the Numbers. *)
Lemma within_tolerance_spec (s score : float) :
  (PrimFloat.abs (s - score) <? tolerance)%float
  = SFltb (SFabs (SFsub prec emax (Prim2SF s) (Prim2SF score))) (Prim2SF tolerance).
Proof. rewrite ltb_spec, abs_spec, sub_spec. reflexivity. Qed.

(** A difference with a Number that is not finite is never below the tolerance. *)
Lemma non_finite_out_of_tolerance (s score : float) :
  is_finite_number s = false \/ is_finite_number score = false ->
  (PrimFloat.abs (s - score) <? tolerance)%float = false.
Proof.
  intros H. rewrite within_tolerance_spec.
  destruct tolerance_value as (m & e & ->).
  unfold is_finite_number in H.
  destruct (Prim2SF s) as [[|]|[|]| |sx mx ex], (Prim2SF score) as [[|]|[|]| |sy my ey];
    cbn in *; try reflexivity; destruct H; discriminate.
Qed.

(** X15. [compare] reports [false] whenever the integrity it is given or
    the score of the request is not a finite Number ([NaN] or an infinity),
    even when the two are the same. *)
Theorem compare_rejects_non_finite (env : Env) (g : TokenGenerator) (rnd : Entropy)
    (integrity : float) (request : Request) (w w' : World) (score : float) :
  calculate env g rnd request w = (Done score, w') ->
  is_finite_number integrity = false \/ is_finite_number score = false ->
  compare env g rnd integrity request w = (Done false, w').
Proof.
  intros Hcalc Hnf. unfold compare, bind. rewrite Hcalc. cbn [ret].
  rewrite (non_finite_out_of_tolerance integrity score Hnf). reflexivity.
Qed.

Lemma compare_rejects_non_finite_witness :
  fst (compare Sample.env Sample.generator Sample.entropy PrimFloat.nan Sample.request
         Sample.world) = Done false.
Proof.
  rewrite (compare_rejects_non_finite Sample.env Sample.generator Sample.entropy
             PrimFloat.nan Sample.request Sample.world
             (snd (calculate Sample.env Sample.generator Sample.entropy Sample.request
                     Sample.world)) 1%float).
  - reflexivity.
  - vm_compute. reflexivity.
  - left. vm_compute. reflexivity.
Defined.

(** ** The range of the signals *)

(** X3. Whatever the header and the patterns, [userAgentTest] returns a
    number of sixths between 0 and 6, so a Number between 0 and 1, and
    [evaluateLanguage] and [evaluateReferer] return 0 or 1. *)
Theorem header_signals_in_unit_interval (env : Env) (agent : option jsstring)
    (botMatch browserMatch : option RegExp) (language : option jsstring)
    (languageMatch : option RegExp) (referer : option jsstring) :
  (in_unit_interval (userAgentTest agent botMatch browserMatch) = true
   /\ exists k, k <= 6
        /\ userAgentTest agent botMatch browserMatch = (Number_of_N k / 6)%float)
  /\ (evaluateLanguage language languageMatch = 0%float
      \/ evaluateLanguage language languageMatch = 1%float)
  /\ (evaluateReferer env referer = 0%float \/ evaluateReferer env referer = 1%float).
Proof.
  split; [|split].
  - unfold userAgentTest. destruct agent as [agent|].
    + destruct (is_blank agent).
      * split; [reflexivity|]. exists 0. split; [discriminate|reflexivity].
      * destruct (search agent botMatch =? -1)%Z, (negb (search agent browserMatch =? -1)%Z),
          (contains 46 agent), (contains 40 agent), (contains 41 agent), (contains 47 agent);
          (split; [vm_compute; reflexivity|]);
          first [ exists 0; split; [discriminate|vm_compute; reflexivity]
                | exists 1; split; [discriminate|vm_compute; reflexivity]
                | exists 2; split; [discriminate|vm_compute; reflexivity]
                | exists 3; split; [discriminate|vm_compute; reflexivity]
                | exists 4; split; [discriminate|vm_compute; reflexivity]
                | exists 5; split; [discriminate|vm_compute; reflexivity]
                | exists 6; split; [discriminate|vm_compute; reflexivity] ].
    + split; [reflexivity|]. exists 0. split; [discriminate|reflexivity].
  - unfold evaluateLanguage. destruct language as [language|]; [|left; reflexivity].
    destruct (is_blank language); [left; reflexivity|].
    destruct (negb _); [right|left]; reflexivity.
  - unfold evaluateReferer. destruct referer as [referer|]; [|left; reflexivity].
    destruct (is_blank referer); [left; reflexivity|].
    match goal with |- context [bit ?b] => destruct b end; [right|left]; reflexivity.
Qed.

(** ** The distance is not bounded by the length of the chain *)

Lemma levenshtein_length_lower (s t : jsstring) :
  (length s - length t <= levenshtein s t)%nat.
Proof.
  revert t. induction s as [|a s IHs]; intros t; [cbn; lia|].
  induction t as [|b t IHt].
  - rewrite levenshtein_nil_r. lia.
  - rewrite levenshtein_cons_cons.
    pose proof (IHs (b :: t)). pose proof (IHs t). cbn [length] in *.
    destruct (a =? b)%N; lia.
Qed.

(** X6. The requestData signal is the distance over the length of the chain,
    and the distance is not bounded by that length: when the library reports
    the edit distance and the ideal chain is more than twice as long as the
    chain of the request, the distance is greater than the length of the
    chain, so that the quotient handed to the network lies above 1. *)
Theorem request_distance_can_exceed_length (env : Env) (g : TokenGenerator)
    (rnd : Entropy) (request : Request) (w : World) :
  let chain := request_chain env g request in
  let distance := levenshtein (idealRequestChain g) chain in
  levenshtein_getAsync env (idealRequestChain g) chain = LevOk (N.of_nat distance) ->
  (2 * length chain < length (idealRequestChain g))%nat ->
  (length chain < distance)%nat
  /\ exists data w',
       calculate env g rnd request w
       = (Done (brain_train_run env (net_seed rnd) (trainingData g) data), w')
       /\ Features.requestData data
          = (Number_of_N (N.of_nat distance) / Number_of_N (N.of_nat (length chain)))%float.
Proof.
  intros chain distance Hlib Hlen. split.
  - pose proof (levenshtein_length_lower (idealRequestChain g) chain). unfold distance. lia.
  - rewrite calculate_run. cbn zeta. fold chain. rewrite Hlib.
    eexists. eexists. split; reflexivity.
Qed.

Lemma request_distance_can_exceed_length_witness :
  (length (request_chain Sample.env Sample.generator empty_request)
   < levenshtein defaultIdealRequestChain
       (request_chain Sample.env Sample.generator empty_request))%nat
  /\ exists data w',
       calculate Sample.env Sample.generator Sample.entropy empty_request Sample.world
       = (Done (Sample.nearest 0 Sample.trainingData data), w')
       /\ Features.requestData data
          = (Number_of_N (N.of_nat (levenshtein defaultIdealRequestChain
                                      (request_chain Sample.env Sample.generator
                                         empty_request)))
             / Number_of_N 24)%float.
Proof.
  refine (request_distance_can_exceed_length Sample.env Sample.generator Sample.entropy
            empty_request Sample.world _ _).
  - cbn [levenshtein_getAsync Sample.env]. rewrite distance_spec. reflexivity.
  - vm_compute. lia.
Defined.

(** A request with no header at all: its chain is the six delimiters around
    two [undefined], the distance from the default ideal chain is 44, and the
    requestData signal is 44/24. *)
Example empty_request_signal :
  LevenshteinRows.distance defaultIdealRequestChain
    (request_chain Sample.env Sample.generator empty_request) = 44%nat
  /\ exists data w',
       calculate Sample.env Sample.generator Sample.entropy empty_request Sample.world
       = (Done 0x1.0624dd2f1a9fcp-10%float, w')
       /\ last (trace w') = Some (NetRun data)
       /\ Features.requestData data = (Number_of_N 44 / Number_of_N 24)%float
       /\ (1 <? Features.requestData data)%float = true.
Proof.
  split; [vm_compute; reflexivity|].
  eexists. eexists. split; [vm_compute; reflexivity|].
  split; [reflexivity|]. split; vm_compute; reflexivity.
Qed.

(** ** The default language pattern *)

Lemma first_index_found (p : jsstring -> bool) (s : jsstring) :
  first_index p s <> None <-> exists before after, s = before ++ after /\ p after = true.
Proof.
  induction s as [|c s IH]; cbn [first_index].
  - destruct (p []) eqn:Hp.
    + split; [|discriminate]. intros _. exists [], []. split; [reflexivity|exact Hp].
    + split; [congruence|]. intros (before & after & Heq & Hafter).
      symmetry in Heq. apply app_eq_nil in Heq. destruct Heq as [_ ->]. congruence.
  - destruct (p (c :: s)) eqn:Hp.
    + split; [|discriminate]. intros _. exists [], (c :: s). split; [reflexivity|exact Hp].
    + destruct (first_index p s) as [i|] eqn:Hfi; cbn.
      * split; [|discriminate]. intros _.
        destruct (proj1 IH ltac:(discriminate)) as (before & after & -> & Hafter).
        exists (c :: before), after. split; [reflexivity|exact Hafter].
      * split; [congruence|]. intros (before & after & Heq & Hafter).
        destruct before as [|c' before].
        -- cbn in Heq. subst after. congruence.
        -- injection Heq as -> ->. exfalso. apply (proj2 IH); [eauto|reflexivity].
Qed.

(** Stripping keeps every character that is not stripped. *)
Lemma drop_while_keeps (p : N -> bool) (c : N) (s : jsstring) :
  In c s -> p c = false -> In c (drop_while p s).
Proof.
  intros Hin Hp. induction s as [|d s IH]; [destruct Hin|].
  cbn [drop_while]. destruct (p d) eqn:Hd; [|exact Hin].
  destruct Hin as [->|Hin]; [congruence|exact (IH Hin)].
Qed.

(** A string with a character that is no white space is not blank. *)
Lemma visible_character_not_blank (c : N) (s : jsstring) :
  In c s -> is_whitespace c = false -> is_blank s = false.
Proof.
  intros Hin Hc. unfold is_blank.
  assert (Htrim : In c (trim s)).
  { unfold trim. rewrite <- in_rev. apply drop_while_keeps; [|exact Hc].
    rewrite <- in_rev. apply drop_while_keeps; assumption. }
  destruct (trim s); [destruct Htrim|reflexivity].
Qed.

(** An ASCII letter is no white space. *)
Lemma letter_is_visible (c : N) : is_letter c = true -> is_whitespace c = false.
Proof.
  intros Hc. assert (Hrange : 65 <= c <= 122).
  { unfold is_letter, upcase in Hc.
    destruct (N.leb_spec 97 c), (N.leb_spec c 122); cbn [andb] in Hc;
      apply andb_true_iff in Hc; destruct Hc as [?%N.leb_le ?%N.leb_le]; lia. }
  unfold is_whitespace.
  repeat match goal with
  | |- context [(?x <=? ?y)] =>
      first [ replace (x <=? y) with true by (symmetry; apply N.leb_le; lia)
            | replace (x <=? y) with false by (symmetry; apply N.leb_gt; lia) ]
  | |- context [(?x =? ?y)] =>
      replace (x =? y) with false by (symmetry; apply N.eqb_neq; lia)
  end.
  reflexivity.
Qed.

(** X4. With the default language pattern, [evaluateLanguage] returns 1
    exactly for the headers in which two ASCII letters stand side by side, and
    0 for all others; the test for a blank header changes nothing there, a
    header with a letter not being blank. *)
Theorem default_language_accepts_letter_pairs (language : jsstring) :
  (evaluateLanguage (Some language) (Some defaultLanguageMatch) = 1%float
   <-> has_letter_pair language)
  /\ (evaluateLanguage (Some language) (Some defaultLanguageMatch) = 0%float
      <-> ~ has_letter_pair language).
Proof.
  assert (Hfound : defaultLanguageMatch language <> None <-> has_letter_pair language).
  { unfold defaultLanguageMatch. rewrite first_index_found. unfold has_letter_pair. split.
    - intros (before & after & -> & Hafter).
      destruct after as [|a [|b after]]; try discriminate.
      apply andb_true_iff in Hafter. destruct Hafter. exists before, a, b, after. auto.
    - intros (before & a & b & after & -> & Ha & Hb).
      exists before, (a :: b :: after). split; [reflexivity|]. rewrite Ha, Hb. reflexivity. }
  assert (Hvisible : has_letter_pair language -> is_blank language = false).
  { intros (before & a & b & after & -> & Ha & _).
    apply (visible_character_not_blank a); [|apply letter_is_visible; exact Ha].
    apply in_or_app. right. left. reflexivity. }
  assert (Hne : (1 : float) <> 0%float) by (apply float_neq; vm_compute; discriminate).
  unfold evaluateLanguage, search.
  destruct (defaultLanguageMatch language) as [i|] eqn:Hm.
  - assert (Hpair : has_letter_pair language) by (apply Hfound; discriminate).
    rewrite (Hvisible Hpair).
    destruct (Z.eqb_spec (Z.of_nat i) (-1)); [lia|]. cbn.
    split; split; auto; try (intros H; exfalso); auto.
  - assert (Hno : ~ has_letter_pair language) by (intros H; apply Hfound in H; congruence).
    destruct (is_blank language); cbn; split; split; auto; intros H; exfalso; auto.
Qed.

(** ** The training store, its examples held by reference *)

(** What [create] does to the store: nothing but taking the working object,
    or, when it succeeds on an object, setting the two properties on it. *)
Lemma create_heap_stamped (env : Env) (g : TokenGenerator) (rnd : Entropy)
    (request : Request) (resourceId : prim) (properties : jsarg) (version : prim)
    (w : World) :
  let created := create env g rnd request resourceId properties version w in
  heap (snd created) = working_heap w properties
  \/ exists l score result,
       working_properties w properties = ArgObj l
       /\ fst created = Done result
       /\ heap (snd created)
          = <[l := stamped (object_at (working_heap w properties) l) version score]>
              (working_heap w properties).
Proof.
  cbv zeta. unfold create, createToken, working_properties, working_heap, bind.
  destruct (arg_to_boolean properties) eqn:Htruthy; cbn [negb ret].
  - rewrite calculate_run. cbn zeta.
    destruct (levenshtein_getAsync env _ _); [left; reflexivity|].
    destruct (remoteAddress request) as [ip|]; [|left; reflexivity].
    unfold_m. cbn. destruct properties as [q|l]; cbn.
    + cbn in Htruthy. rewrite Htruthy. left. reflexivity.
    + right. unfold stamped, object_at. simplify_stores.
      eexists. eexists. eexists. split; [reflexivity|]. split; reflexivity.
  - unfold new_object. cbn. rewrite calculate_run. cbn zeta.
    destruct (levenshtein_getAsync env _ _); [left; reflexivity|].
    destruct (remoteAddress request) as [ip|]; [|left; reflexivity].
    unfold_m. cbn. right.
    eexists. eexists. eexists. split; [reflexivity|]. split; [reflexivity|].
    unfold stamped, object_at. simplify_stores. reflexivity.
Qed.

(** [create] keeps every object, writes on none but the one it is handed, and
    on that one under [version] and [integrity] only. *)
Lemma create_keeps_other_keys (env : Env) (g : TokenGenerator) (rnd : Entropy)
    (request : Request) (resourceId : prim) (properties : jsarg) (version : prim)
    (w : World) (l : positive) (o : gmap string prim) :
  heap w !! l = Some o ->
  exists o',
    heap (snd (create env g rnd request resourceId properties version w)) !! l = Some o'
    /\ (forall k, k <> "version"%string -> k <> "integrity"%string -> o' !! k = o !! k)
    /\ (properties <> ArgObj l -> o' = o).
Proof.
  intros Hl.
  pose proof (working_heap_keeps w properties l o Hl) as Hkept.
  destruct (create_heap_stamped env g rnd request resourceId properties version w)
    as [Hh|(l0 & score & result & Hp & _ & Hh)]; cbv zeta in Hh; rewrite Hh.
  - exists o. split; [exact Hkept|]. split; reflexivity.
  - destruct (decide (l0 = l)) as [->|Hne].
    + rewrite lookup_insert_eq. eexists. split; [reflexivity|].
      unfold object_at. rewrite Hkept. cbn [default].
      split; [apply stamped_lookup|].
      intros Hother. exfalso. unfold working_properties in Hp.
      destruct (arg_to_boolean properties); [congruence|].
      injection Hp as Hp. exact (fresh_is_new w l o Hl Hp).
    + rewrite lookup_insert_ne by exact Hne.
      exists o. split; [exact Hkept|]. split; reflexivity.
Qed.

Import ByReference.

(** One call keeps every object of the store, and writes on it only when it
    is a [create] that is handed the object. *)
Lemma step_keeps (net : Scorer) (env : Env) (g : TokenGenerator) (s : Store) (op : Op)
    (l : positive) :
  is_Some (objects s !! l) ->
  kept s (ByReference.step net env g s op) l
  /\ (~ creates_on l op ->
      objects (ByReference.step net env g s op) !! l = objects s !! l
      /\ links (ByReference.step net env g s op) !! l = links s !! l).
Proof.
  intros [o Hl].
  assert (Hsame : kept s s l /\ (objects s !! l = objects s !! l
                                 /\ links s !! l = links s !! l)).
  { split; [|split; reflexivity]. split; [eauto|]. intros k _ _. split; reflexivity. }
  destruct op as [ua la re rd it|rnd request resourceId properties version|token
                 |rnd it request|rnd request|request]; cbn [ByReference.step];
    try (split; [exact (proj1 Hsame)|intros _; exact (proj2 Hsame)]).
  - unfold ByReference.train.
    set (le := fresh (dom (objects s))).
    set (h1 := <[le := ∅]> (objects s)).
    set (li := fresh (dom h1)).
    set (h2 := <[li := _]> h1).
    set (lo := fresh (dom h2)).
    assert (Hle : le <> l).
    { intros <-. apply (is_fresh (dom (objects s))). apply elem_of_dom. eauto. }
    assert (H1 : h1 !! l = Some o)
      by (unfold h1; rewrite lookup_insert_ne by exact Hle; exact Hl).
    assert (Hli : li <> l).
    { intros <-. apply (is_fresh (dom h1)). apply elem_of_dom. eauto. }
    assert (H2 : h2 !! l = Some o)
      by (unfold h2; rewrite lookup_insert_ne by exact Hli; exact H1).
    assert (Hlo : lo <> l).
    { intros <-. apply (is_fresh (dom h2)). apply elem_of_dom. eauto. }
    assert (Hobj : <[lo := {[ "integrity" := PNum it ]}]> h2 !! l = objects s !! l).
    { rewrite lookup_insert_ne by exact Hlo. rewrite H2, Hl. reflexivity. }
    assert (Hlnk : <[le := {[ "input" := li; "output" := lo ]}]> (links s) !! l
                   = links s !! l)
      by (rewrite lookup_insert_ne by exact Hle; reflexivity).
    split; [|intros _; split; [exact Hobj|exact Hlnk]].
    split; [cbn [objects]; rewrite Hobj; eauto|].
    intros k _ _. unfold property, link. cbn [objects links]. rewrite Hobj, Hlnk.
    split; reflexivity.
  - unfold ByReference.create. cbn zeta.
    set (w := {| heap := objects s; trace := [] |}).
    destruct (create_keeps_other_keys (reading env net s) g rnd request resourceId
                properties version w l o Hl) as (o' & Ho' & Hkeys & Hother).
    match type of Ho' with heap (snd ?c) !! _ = _ => set (r := c) in * end.
    assert (Hlinks : forall k, k <> "version"%string -> k <> "integrity"%string ->
              match fst r, properties with
              | Done _, ArgObj l0 =>
                  alter (fun o => delete "integrity" (delete "version" o)) l0 (links s)
              | _, _ => links s
              end !! l ≫= (fun o => o !! k)
              = links s !! l ≫= (fun o => o !! k)).
    { intros k Hv Hi. destruct (fst r) as [result|e|]; try reflexivity.
      destruct properties as [q|l0]; [reflexivity|].
      destruct (decide (l0 = l)) as [->|Hne].
      - rewrite lookup_alter_eq. destruct (links s !! l) as [m|]; [|reflexivity].
        cbn. rewrite !lookup_delete_ne by congruence. reflexivity.
      - rewrite lookup_alter_ne by exact Hne. reflexivity. }
    split.
    + split; [cbn [objects]; rewrite Ho'; eauto|].
      intros k Hv Hi. unfold property, link. cbn [objects links].
      split; [|apply Hlinks; assumption].
      rewrite Ho', Hl. cbn. apply Hkeys; assumption.
    + intros Hnot. cbn [objects links].
      assert (Hne : properties <> ArgObj l).
      { intros ->. apply Hnot. reflexivity. }
      split; [rewrite Ho', Hl, (Hother Hne); reflexivity|].
      destruct (fst r) as [result|e|]; try reflexivity.
      destruct properties as [q|l0]; [reflexivity|].
      rewrite lookup_alter_ne by congruence. reflexivity.
Qed.

(** The same over a sequence of calls. *)
Lemma run_keeps (net : Scorer) (env : Env) (g : TokenGenerator) (ops : list Op)
    (s : Store) (l : positive) :
  is_Some (objects s !! l) ->
  kept s (ByReference.run net env g ops s) l
  /\ (untouched l ops ->
      objects (ByReference.run net env g ops s) !! l = objects s !! l
      /\ links (ByReference.run net env g ops s) !! l = links s !! l).
Proof.
  revert s. induction ops as [|op ops IH]; intros s Hl.
  - cbn. split; [|intros _; split; reflexivity].
    split; [exact Hl|]. intros k _ _. split; reflexivity.
  - unfold ByReference.run in *. cbn [fold_left].
    destruct (step_keeps net env g s op l Hl) as [[Hl1 Hkeys1] Hsame1].
    destruct (IH (ByReference.step net env g s op) Hl1) as [[Hl2 Hkeys2] Hsame2].
    split.
    + split; [exact Hl2|]. intros k Hv Hi.
      destruct (Hkeys1 k Hv Hi) as [Hp1 Hk1]. destruct (Hkeys2 k Hv Hi) as [Hp2 Hk2].
      split; congruence.
    + intros Hall. apply Forall_cons in Hall. destruct Hall as [Hop Hops].
      destruct (Hsame1 Hop) as [Ho1 Hk1]. destruct (Hsame2 Hops) as [Ho2 Hk2].
      split; congruence.
Qed.

(** A location that holds no object after a call held none before it. *)
Lemma step_allocated (net : Scorer) (env : Env) (g : TokenGenerator) (s : Store) (op : Op)
    (l : positive) :
  objects (ByReference.step net env g s op) !! l = None -> objects s !! l = None.
Proof.
  intros Hnone. destruct (objects s !! l) as [o|] eqn:Hl; [|reflexivity].
  destruct (step_keeps net env g s op l (ex_intro _ o Hl)) as [[[o' Ho'] _] _].
  congruence.
Qed.

(** [train] pushes one example, of three new objects that hold what was
    submitted. *)
Lemma train_appends (userAgent language referer requestData integrity : float)
    (s : Store) :
  let s1 := ByReference.train userAgent language referer requestData integrity s in
  exists le li lo,
    examples s1 = examples s ++ [le]
    /\ objects s !! le = None /\ objects s !! li = None /\ objects s !! lo = None
    /\ is_Some (objects s1 !! le)
    /\ link s1 le "input" = Some li /\ link s1 le "output" = Some lo
    /\ objects s1 !! li
       = Some {[ "userAgent" := PNum userAgent; "language" := PNum language;
                 "referer" := PNum referer; "requestData" := PNum requestData ]}
    /\ objects s1 !! lo = Some {[ "integrity" := PNum integrity ]}.
Proof.
  cbv zeta. unfold ByReference.train.
  set (le := fresh (dom (objects s))).
  set (h1 := <[le := ∅]> (objects s)).
  set (li := fresh (dom h1)).
  set (h2 := <[li := _]> h1).
  set (lo := fresh (dom h2)).
  assert (Hle : objects s !! le = None) by (apply not_elem_of_dom, is_fresh).
  assert (Hli : h1 !! li = None) by (apply not_elem_of_dom, is_fresh).
  assert (Hlo : h2 !! lo = None) by (apply not_elem_of_dom, is_fresh).
  assert (Hlile : li <> le).
  { intros Heq. rewrite Heq in Hli. unfold h1 in Hli. rewrite lookup_insert_eq in Hli.
    discriminate. }
  assert (Hloli : lo <> li).
  { intros Heq. rewrite Heq in Hlo. unfold h2 in Hlo. rewrite lookup_insert_eq in Hlo.
    discriminate. }
  assert (Hlole : lo <> le).
  { intros Heq. rewrite Heq in Hlo. unfold h2, h1 in Hlo.
    rewrite lookup_insert_ne, lookup_insert_eq in Hlo by congruence. discriminate. }
  exists le, li, lo. cbn [examples objects links]. unfold link. cbn [links].
  split; [reflexivity|]. split; [exact Hle|].
  split.
  { unfold h1 in Hli. rewrite lookup_insert_ne in Hli by congruence. exact Hli. }
  split.
  { unfold h2, h1 in Hlo. rewrite !lookup_insert_ne in Hlo by congruence. exact Hlo. }
  split.
  { rewrite lookup_insert_ne by congruence. unfold h2.
    rewrite lookup_insert_ne by congruence. unfold h1. rewrite lookup_insert_eq. eauto. }
  split; [rewrite lookup_insert_eq; reflexivity|].
  split; [rewrite lookup_insert_eq; reflexivity|].
  split.
  { rewrite lookup_insert_ne by congruence. unfold h2. rewrite lookup_insert_eq.
    reflexivity. }
  rewrite lookup_insert_eq. reflexivity.
Qed.

(** The array after a sequence of calls: the array before, followed by the
    examples of the [train] calls in the order of these calls. *)
Lemma run_appends (net : Scorer) (env : Env) (g : TokenGenerator) (ops : list Op)
    (s : Store) :
  exists added,
    examples (ByReference.run net env g ops s) = examples s ++ added
    /\ Forall2 (appended s (ByReference.run net env g ops s) ops) added (submitted ops).
Proof.
  revert s. induction ops as [|op ops IH]; intros s.
  - exists []. cbn. rewrite app_nil_r. split; [reflexivity|constructor].
  - unfold ByReference.run in *. cbn [fold_left].
    set (s1 := ByReference.step net env g s op).
    destruct (IH s1) as (added & Hex & Hall).
    set (s' := fold_left (ByReference.step net env g) ops s1) in *.
    assert (Hweaken : Forall2 (appended s s' (op :: ops)) added (submitted ops)).
    { eapply Forall2_impl; [exact Hall|].
      intros l e (Hl & li & lo & Hin & Hout & Hli & Hlo & Hfeat & Hint).
      split; [exact (step_allocated net env g s op l Hl)|].
      exists li, lo. split; [exact Hin|]. split; [exact Hout|].
      split; [exact (step_allocated net env g s op li Hli)|].
      split; [exact (step_allocated net env g s op lo Hlo)|].
      split; [exact Hfeat|].
      intros Hun. apply Hint. apply Forall_cons in Hun. exact (proj2 Hun). }
    destruct op as [ua la re rd it|rnd request resourceId properties version|token
                   |rnd it request|rnd request|request];
      try (exists added; split; [exact Hex|exact Hweaken]).
    destruct (train_appends ua la re rd it s)
      as (le & li & lo & Hex1 & Hle & Hli & Hlo & Hle1 & Hin & Hout & Hi1 & Ho1).
    cbv zeta in *. change (ByReference.train ua la re rd it s) with s1 in *.
    exists (le :: added). split.
    { rewrite Hex, Hex1, <- app_assoc. reflexivity. }
    cbn [submitted]. constructor; [|exact Hweaken].
    split; [exact Hle|]. exists li, lo.
    destruct (run_keeps net env g ops s1 le Hle1) as [[_ Hkeys] _].
    unfold ByReference.run in Hkeys. fold s' in Hkeys.
    split; [rewrite (proj2 (Hkeys "input"%string ltac:(discriminate) ltac:(discriminate)));
            exact Hin|].
    split; [rewrite (proj2 (Hkeys "output"%string ltac:(discriminate) ltac:(discriminate)));
            exact Hout|].
    split; [exact Hli|]. split; [exact Hlo|].
    destruct (run_keeps net env g ops s1 li (ex_intro _ _ Hi1)) as [[[i Hi] Hikeys] _].
    destruct (run_keeps net env g ops s1 lo (ex_intro _ _ Ho1)) as [_ Hosame].
    unfold ByReference.run in *. fold s' in Hi, Hikeys, Hosame.
    split.
    + exists i. split; [exact Hi|].
      assert (Hkey : forall k, k <> "version"%string -> k <> "integrity"%string ->
                i !! k = ({[ "userAgent" := PNum ua; "language" := PNum la;
                            "referer" := PNum re; "requestData" := PNum rd ]}
                          : gmap string prim) !! k).
      { intros k Hv Hint. pose proof (proj1 (Hikeys k Hv Hint)) as Hp.
        unfold property in Hp. rewrite Hi, Hi1 in Hp. exact Hp. }
      unfold reads_features. cbn [input Features.userAgent Features.language
                                   Features.referer Features.requestData].
      rewrite !Hkey by discriminate. repeat split; reflexivity.
    + intros Hun. apply Forall_cons in Hun. destruct Hun as [_ Hun].
      rewrite (proj1 (Hosame Hun)). exact Ho1.
Qed.

(** C7, as stated, fails: an example of the store is an object, and [create]
    writes on the object it is handed. After two [train] calls the array holds
    the examples at 1 and 4. A [create] that is handed the first example
    leaves [version] and [integrity] on it. A [create] that is handed the
    output object of the second example, which held the integrity 0.25 as
    submitted, leaves on it the score of the request, 1: the network is
    trained on another example from then on. *)
Lemma create_writes_on_a_stored_example :
  let on_example :=
    ByReference.step sample_scorer Sample.env untrained two_trained
      (create_handed 1) in
  let on_output :=
    ByReference.step sample_scorer Sample.env untrained two_trained
      (create_handed 6) in
  examples two_trained = [1; 4]%positive
  /\ objects two_trained !! 1%positive = Some ∅
  /\ examples on_example = [1; 4]%positive
  /\ objects on_example !! 1%positive
     = Some {[ "version" := PStr (js "1.0"); "integrity" := PNum 1%float ]}
  /\ objects on_example !! 1%positive <> objects two_trained !! 1%positive
  /\ link two_trained 4 "output" = Some 6%positive
  /\ objects two_trained !! 6%positive = Some {[ "integrity" := PNum 0x1p-2%float ]}
  /\ read_example two_trained 4
     = Some {| input := Features.Build 0 0 0 1; output_integrity := 0x1p-2%float |}
  /\ examples on_output = [1; 4]%positive
  /\ property on_output 6 "integrity" = Some (PNum 1%float)
  /\ read_example on_output 4
     = Some {| input := Features.Build 0 0 0 1; output_integrity := 1%float |}.
Proof.
  cbv zeta.
  assert (Hbefore : objects two_trained !! 1%positive = Some ∅)
    by (vm_compute; reflexivity).
  assert (Hafter : objects (ByReference.step sample_scorer Sample.env untrained
                              two_trained (create_handed 1)) !! 1%positive
                   = Some {[ "version" := PStr (js "1.0"); "integrity" := PNum 1%float ]})
    by (vm_compute; reflexivity).
  split; [vm_compute; reflexivity|]. split; [exact Hbefore|].
  split; [vm_compute; reflexivity|]. split; [exact Hafter|].
  split.
  { rewrite Hafter, Hbefore. intros Heq.
    apply (f_equal (fun x : option (gmap string prim) =>
                      x ≫= (fun o => o !! "version"))) in Heq.
    vm_compute in Heq. discriminate. }
  repeat (split; [vm_compute; reflexivity|]). vm_compute. reflexivity.
Qed.

(** C7, amended. Whatever calls are made on a generator, in whatever order:
    the array of its training store afterwards is the array before followed
    by one example for every [train] call, in the order of these calls, so N
    calls add exactly N examples and every example that was in the array is
    still at its place; each added example is a new object that refers to a
    new input object holding the submitted signals and to a new output object
    holding the submitted integrity; no object of the store is removed; and
    an object is written on only by a [create] that is handed it, under
    [version] and [integrity] and under no other key. (The libraries are
    taken to read the store only.) *)
Theorem training_store_by_reference (net : Scorer) (env : Env) (g : TokenGenerator)
    (ops : list Op) (s : Store) :
  let s' := ByReference.run net env g ops s in
  (exists added,
     examples s' = examples s ++ added
     /\ length added = train_calls ops
     /\ Forall2 (appended s s' ops) added (submitted ops))
  /\ (forall i l, examples s !! i = Some l -> examples s' !! i = Some l)
  /\ (forall l, is_Some (objects s !! l) ->
        kept s s' l
        /\ (untouched l ops ->
            objects s' !! l = objects s !! l /\ links s' !! l = links s !! l)).
Proof.
  cbv zeta.
  destruct (run_appends net env g ops s) as (added & Hex & Hall).
  split; [|split].
  - exists added. split; [exact Hex|]. split; [|exact Hall].
    rewrite (Forall2_length _ _ _ Hall). apply submitted_length.
  - intros i l Hi. rewrite Hex. apply lookup_app_l_Some. exact Hi.
  - intros l Hl. apply run_keeps. exact Hl.
Qed.

(** C7, amended, on the two [train] calls followed by the [create] that is
    handed the output object of the second example: the array has grown by
    two, the first example and its objects are as submitted, and so is the
    input of the second. *)
Example two_trained_then_created :
  let s' := ByReference.run sample_scorer Sample.env untrained
              [OpTrain 1 1 1 0 1; OpTrain 0 0 0 1 0x1p-2; create_handed 6] empty_store in
  examples s' = [1; 4]%positive
  /\ read_example s' 1
     = Some {| input := Features.Build 1 1 1 0; output_integrity := 1%float |}
  /\ read_example s' 4
     = Some {| input := Features.Build 0 0 0 1; output_integrity := 1%float |}
  /\ property s' 6 "version" = Some (PStr (js "1.0")).
Proof. cbv zeta. repeat (split; [vm_compute; reflexivity|]). vm_compute. reflexivity. Qed.

(** What the network reads of an example that was appended and whose output
    object no [create] was handed. *)
Lemma appended_reads (s s' : Store) (ops : list Op) (l : positive) (e : TrainingExample) :
  appended s s' ops l e ->
  (forall lo, link s' l "output" = Some lo -> untouched lo ops) ->
  read_example s' l = Some e.
Proof.
  intros (_ & li & lo & Hin & Hout & _ & _ & (i & Hi & Hua & Hla & Hre & Hrd) & Hint) Hun.
  specialize (Hint (Hun lo Hout)).
  unfold read_example. rewrite Hin, Hout. cbn. rewrite Hi, Hint. cbn.
  unfold read_number. rewrite Hua, Hla, Hre, Hrd, lookup_singleton_eq.
  destruct e as [[ua la re rd] it]. reflexivity.
Qed.

(** X18. As long as no [create] is handed an object (its properties are
    left out or are a primitive, as in the module's test), the two views of
    the training store agree: on a generator constructed without training
    data, after any sequence of calls the network reads from the array, one
    example after another, exactly the examples submitted through [train] in
    the order of the calls. *)
Theorem store_reads_as_submitted (net : Scorer) (env : Env) (g : TokenGenerator)
    (ops : list Op) :
  Forall (fun op => ~ hands_object op) ops ->
  let s' := ByReference.run net env g ops empty_store in
  map (read_example s') (examples s') = map Some (submitted ops)
  /\ length (examples s') = train_calls ops.
Proof.
  intros Hnone. cbv zeta.
  destruct (run_appends net env g ops empty_store) as (added & Hex & Hall).
  cbn [examples empty_store app] in Hex. rewrite Hex.
  assert (Hun : forall lo, untouched lo ops).
  { intros lo. unfold untouched. eapply Forall_impl; [exact Hnone|].
    intros op Hop Hon. apply Hop.
    destruct op as [ua la re rd it|rnd request resourceId [q|l] version|token
                   |rnd it request|rnd request|request]; cbn in *;
      solve [exact I|destruct Hon]. }
  split.
  - clear Hex. induction Hall as [|l e added' sub' Hle _ IH]; [reflexivity|].
    cbn [map]. rewrite IH. f_equal.
    apply (appended_reads _ _ _ _ _ Hle). intros lo _. apply Hun.
  - rewrite (Forall2_length _ _ _ Hall). apply submitted_length.
Qed.

(** X18, on two [train] calls around a [create] whose properties are a
    string. *)
Lemma store_reads_as_submitted_witness :
  map (read_example
         (ByReference.run sample_scorer Sample.env untrained
            [OpTrain 1 1 1 0 1;
             OpCreate Sample.entropy Sample.request (PStr (js "testResourceId"))
               (ArgPrim (PStr (js "1.0"))) PUndefined;
             OpTrain 0 0 0 1 0x1p-2] empty_store))
      (examples
         (ByReference.run sample_scorer Sample.env untrained
            [OpTrain 1 1 1 0 1;
             OpCreate Sample.entropy Sample.request (PStr (js "testResourceId"))
               (ArgPrim (PStr (js "1.0"))) PUndefined;
             OpTrain 0 0 0 1 0x1p-2] empty_store))
  = [ Some {| input := Features.Build 1 1 1 0; output_integrity := 1%float |};
      Some {| input := Features.Build 0 0 0 1; output_integrity := 0x1p-2%float |} ].
Proof.
  refine (proj1 (store_reads_as_submitted sample_scorer Sample.env untrained
                   [OpTrain 1 1 1 0 1;
                    OpCreate Sample.entropy Sample.request (PStr (js "testResourceId"))
                      (ArgPrim (PStr (js "1.0"))) PUndefined;
                    OpTrain 0 0 0 1 0x1p-2] _)).
  repeat constructor; cbn; intros H; exact H.
Defined.
